(** * static/js/map.js: the hazard map viewer, embedded and verified

    The page script keeps a handful of module-level variables (the Leaflet
    map, three layer groups, the current marker) and reacts to DOM events.
    It is embedded here as state-passing code in a small state-and-exception
    monad: a handler is a function from the page state to an outcome
    (a value or a thrown exception) and the next page state.

    A [Page] is a page on which [initMap] has created the map and the three
    layer groups (before that the script installs nothing, so no handler
    runs); its alerts, console entries and requests are the trace of what
    the page has done since it was first looked at.

    What lies outside the script is modelled by its documented behaviour:
    - Leaflet: a layer group is a list of child layers and is either on the
      map or not; a marker or a path is an object with a fresh stamp;
      [L.geoJSON] makes a layer for each member of a feature collection
      that has a geometry, skips the members whose geometry is null, and
      throws on JSON that is not GeoJSON; the geometries are lines and
      polygons, which is what the style callback applies to;
    - the DOM: which elements carry the class [hidden], their [innerHTML]
      and inline style; the elements the script looks up by id exist;
    - the network: an oracle giving, for each request, either a rejection
      or a response with a status and a body that parses or does not;
    - numbers: JSON numbers are rationals; how a number is printed belongs
      to the host ([Host]). *)

From Stdlib Require Import QArith Ascii String.
From stdpp Require Import gmap strings list pretty.

Local Open Scope Q_scope.
Local Open Scope stdpp_scope.

(** ** Strings *)

Definition nl : string := String "010"%char "".
Definition dq : string := String "034"%char "".

Fixpoint spaces (n : nat) : string :=
  match n with
  | O => ""
  | S n' => String " "%char (spaces n')
  end.

(** [s.includes(t)], as a proposition and as a test. *)
Definition contains (s t : string) : Prop :=
  ∃ pre post : string, s = pre +:+ t +:+ post.

Fixpoint includes (s t : string) : bool :=
  if String.prefix t s then true
  else match s with
       | EmptyString => false
       | String _ s' => includes s' t
       end.

(** [c.toUpperCase()] on one ASCII character. *)
Definition upper (c : ascii) : ascii :=
  let n := nat_of_ascii c in
  if (97 <=? n)%nat && (n <=? 122)%nat then ascii_of_nat (n - 32) else c.

(** [s.charAt(0).toUpperCase() + s.slice(1)] *)
Definition capitalize (s : string) : string :=
  match s with
  | EmptyString => ""
  | String c rest => String (upper c) rest
  end.

(** ** JavaScript values *)

(** The values a property of a parsed JSON object can hold here (scalars),
    [undefined] for a property that is absent, and the members every object
    literal inherits from [Object.prototype]. *)
Inductive value : Type :=
  | VUndefined
  | VNull
  | VBool (b : bool)
  | VNum (q : Q)
  | VStr (s : string)
  | VBuiltin (name : string).

(** Printing of numbers is the host's. *)
Class Host : Type := {
  Number_toString : Q → string;
  Number_toLocaleString : Q → string;
  Number_toFixed : nat → Q → string
}.

(** ToBoolean *)
Definition truthy (v : value) : bool :=
  match v with
  | VUndefined | VNull => false
  | VBool b => b
  | VNum q => negb (Qeq_bool q 0)
  | VStr s => negb (String.eqb s "")
  | VBuiltin _ => true
  end.

(** [a || b] *)
Definition or_else (a b : value) : value := if truthy a then a else b.

(** Own properties of an object; reading goes through the prototype. *)
Definition Object_prototype : list string :=
  [ "constructor"; "hasOwnProperty"; "isPrototypeOf"; "propertyIsEnumerable";
    "toLocaleString"; "toString"; "valueOf";
    "__defineGetter__"; "__defineSetter__"; "__lookupGetter__";
    "__lookupSetter__"; "__proto__" ].

(** [o[k]] for an object literal or a parsed JSON object *)
Definition Get (o : gmap string value) (k : string) : value :=
  match o !! k with
  | Some v => v
  | None => if bool_decide (k ∈ Object_prototype) then VBuiltin k else VUndefined
  end.

(** ** GeoJSON and Leaflet objects *)

(** A feature whose [properties] is an object: what the callbacks of
    [addGeoJSONLayer] work on once [feature.properties] has been read. *)
Record Feature : Type := { properties : gmap string value }.

(** A member of the [features] array of a parsed collection: whether its
    [geometry] is there or null (the geometry itself is carried along
    untouched), and its [properties], an object or null.  (A member without
    [properties] behaves like one where it is null, with [undefined] for
    [null] in the message of the error.) *)
Record Member : Type := {
  has_geometry : bool;
  member_properties : option (gmap string value)
}.

(** What the body of a hazard response parses to: a feature collection (an
    empty one stands for the values [L.geoJSON] draws nothing for), or JSON
    that is not GeoJSON. *)
Inductive GeoJSON : Type :=
  | FeatureCollection (features : list Member)
  | NotGeoJSON.

(** The path options returned by the [style] callback. *)
Record PathOptions : Type := {
  fillColor : value;
  weight : Q;
  opacity : Q;
  color : string;
  fillOpacity : Q
}.

(** A vector layer made by [L.geoJSON] for one member: [layer.feature] is
    that member. *)
Record Path : Type := {
  path_stamp : nat;
  path_feature : Member;
  path_options : PathOptions;
  path_popup : option string
}.

(** [L.layerGroup()]: its child layers, and whether it is on the map. *)
Record LayerGroup : Type := {
  layers : list Path;
  on_map : bool
}.

(** [L.marker([lat, lng])] *)
Record Marker : Type := {
  marker_stamp : nat;
  marker_latlng : Q * Q
}.

(** The three module-level layer variables, as references. *)
Inductive LayerVar : Type := FloodLayer | LandslideLayer | LiquefactionLayer.

(** ** The network *)

Record File : Type := { file_name : string }.

(** The two fields appended to the [FormData] of an upload. *)
Record FormData : Type := {
  shapefile : File;
  dataset_type : string
}.

Inductive Request : Type :=
  | GET (url : string)
  | POST (url : string) (body : FormData).

(** What [fetch] settles to: a rejection, or a response with its [ok] flag
    and a body that [response.json()] parses ([Some]) or rejects ([None]). *)
Inductive FetchResult (A : Type) : Type :=
  | Rejected
  | Responded (ok : bool) (body : option A).
Arguments Rejected {A}.
Arguments Responded {A} ok body.

Record Response (A : Type) : Type := {
  response_ok : bool;
  response_body : option A
}.
Arguments response_ok {A} _.
Arguments response_body {A} _.

Record Network : Type := {
  hazard_api : string → FetchResult GeoJSON;
  upload_api : FormData → FetchResult (gmap string value)
}.

(** ** Page state *)

Inductive Callback : Type := LocationReload.

Inductive exn : Type :=
  | TypeError (msg : string)
  | SyntaxError (msg : string)
  | Error (msg : string).

Record Page : Type := {
  (* Leaflet *)
  last_stamp : nat;
  map_markers : list Marker;
  floodLayer : LayerGroup;
  landslideLayer : LayerGroup;
  liquefactionLayer : LayerGroup;
  (* let currentMarker; *)
  currentMarker : option Marker;
  (* document *)
  classList : gset (string * string);
  innerHTML : gmap string string;
  style : gmap (string * string) string;
  (* window *)
  alerts : list string;
  console : list (string * exn);
  requests : list Request;
  timers : list (nat * Callback);
  reloaded : bool
}.

Definition set_leaflet (n : nat) (ms : list Marker) (fl ll ql : LayerGroup)
    (p : Page) : Page :=
  {| last_stamp := n; map_markers := ms;
     floodLayer := fl; landslideLayer := ll; liquefactionLayer := ql;
     currentMarker := currentMarker p;
     classList := classList p; innerHTML := innerHTML p; style := style p;
     alerts := alerts p; console := console p; requests := requests p;
     timers := timers p; reloaded := reloaded p |}.

Definition set_currentMarker (m : option Marker) (p : Page) : Page :=
  {| last_stamp := last_stamp p; map_markers := map_markers p;
     floodLayer := floodLayer p; landslideLayer := landslideLayer p;
     liquefactionLayer := liquefactionLayer p;
     currentMarker := m;
     classList := classList p; innerHTML := innerHTML p; style := style p;
     alerts := alerts p; console := console p; requests := requests p;
     timers := timers p; reloaded := reloaded p |}.

Definition set_document (cl : gset (string * string)) (html : gmap string string)
    (st : gmap (string * string) string) (p : Page) : Page :=
  {| last_stamp := last_stamp p; map_markers := map_markers p;
     floodLayer := floodLayer p; landslideLayer := landslideLayer p;
     liquefactionLayer := liquefactionLayer p;
     currentMarker := currentMarker p;
     classList := cl; innerHTML := html; style := st;
     alerts := alerts p; console := console p; requests := requests p;
     timers := timers p; reloaded := reloaded p |}.

Definition set_window (al : list string) (co : list (string * exn))
    (rq : list Request) (tm : list (nat * Callback)) (rl : bool)
    (p : Page) : Page :=
  {| last_stamp := last_stamp p; map_markers := map_markers p;
     floodLayer := floodLayer p; landslideLayer := landslideLayer p;
     liquefactionLayer := liquefactionLayer p;
     currentMarker := currentMarker p;
     classList := classList p; innerHTML := innerHTML p; style := style p;
     alerts := al; console := co; requests := rq; timers := tm;
     reloaded := rl |}.

(** Reading and writing a layer group through its variable. *)
Definition group (l : LayerVar) (p : Page) : LayerGroup :=
  match l with
  | FloodLayer => floodLayer p
  | LandslideLayer => landslideLayer p
  | LiquefactionLayer => liquefactionLayer p
  end.

Definition set_group (l : LayerVar) (g : LayerGroup) (p : Page) : Page :=
  match l with
  | FloodLayer =>
      set_leaflet (last_stamp p) (map_markers p) g (landslideLayer p)
        (liquefactionLayer p) p
  | LandslideLayer =>
      set_leaflet (last_stamp p) (map_markers p) (floodLayer p) g
        (liquefactionLayer p) p
  | LiquefactionLayer =>
      set_leaflet (last_stamp p) (map_markers p) (floodLayer p)
        (landslideLayer p) g p
  end.

(** ** The monad of handlers: page state and exceptions *)

Inductive outcome (A : Type) : Type :=
  | Normal (a : A)
  | Throw (e : exn).
Arguments Normal {A} a.
Arguments Throw {A} e.

Definition js (A : Type) : Type := Page → outcome A * Page.

#[global] Instance js_ret : MRet js := λ A a p, (Normal a, p).

#[global] Instance js_bind : MBind js := λ A B f m p,
  match m p with
  | (Normal a, p') => f a p'
  | (Throw e, p') => (Throw e, p')
  end.

Definition throw {A : Type} (e : exn) : js A := λ p, (Throw e, p).

(** [try { body } catch (error) { handler }] *)
Definition try_catch {A : Type} (body : js A) (handler : exn → js A) : js A :=
  λ p, match body p with
       | (Normal a, p') => (Normal a, p')
       | (Throw e, p') => handler e p'
       end.

Definition lift {A : Type} (o : outcome A) : js A := λ p, (o, p).

Definition modify (f : Page → Page) : js unit := λ p, (Normal tt, f p).
Definition gets {A : Type} (f : Page → A) : js A := λ p, (Normal (f p), p).

(** The page a handler leaves behind, and whether it returned normally. *)
Definition exec {A : Type} (m : js A) (p : Page) : Page := (m p).2.
Definition returns {A : Type} (m : js A) (p : Page) : Prop :=
  ∃ a, (m p).1 = Normal a.

(** ** Leaflet *)

(** [L.stamp]: hand out the next unique layer id. *)
Definition L_stamp : js nat := λ p,
  let n := S (last_stamp p) in
  (Normal n,
   set_leaflet n (map_markers p) (floodLayer p) (landslideLayer p)
     (liquefactionLayer p) p).

(** [map.addLayer(g)] and [map.removeLayer(g)] for a layer group [g]:
    the group's children stay with the group. *)
Definition map_addLayer (l : LayerVar) : js unit :=
  modify (λ p, set_group l {| layers := layers (group l p); on_map := true |} p).

Definition map_removeLayer (l : LayerVar) : js unit :=
  modify (λ p, set_group l {| layers := layers (group l p); on_map := false |} p).

(** [layer.addTo(layerGroup)]: a new layer has a fresh stamp, so it is
    appended to the group's children. *)
Definition addTo (layer : Path) (l : LayerVar) : js unit :=
  modify (λ p, set_group l {| layers := layers (group l p) ++ [layer];
                              on_map := on_map (group l p) |} p).

(** [layer.bindPopup(content)] *)
Definition bindPopup (content : string) (layer : Path) : Path :=
  {| path_stamp := path_stamp layer; path_feature := path_feature layer;
     path_options := path_options layer; path_popup := Some content |}.

(** [L.geoJSON(data, {style, onEachFeature})] on the members of a
    collection: a member whose geometry is null is skipped; for any other
    member, in turn, its layer is made, [style] is called on the member to
    style the layer, and [onEachFeature] is called on the member and its
    layer.  What a callback throws ends the call.  The layer is given its
    stamp here: Leaflet stamps it when it is first added to a group, which
    is what the [onEachFeature] of the script does with it. *)
Fixpoint addData (features : list Member) (style : Member → js PathOptions)
    (onEachFeature : Member → Path → js unit) : js unit :=
  match features with
  | [] => mret tt
  | feature :: rest =>
      if has_geometry feature then
        options ← style feature;
        n ← L_stamp;
        onEachFeature feature
          {| path_stamp := n; path_feature := feature;
             path_options := options; path_popup := None |};;
        addData rest style onEachFeature
      else addData rest style onEachFeature
  end.

Definition L_geoJSON (geojsonData : GeoJSON) (style : Member → js PathOptions)
    (onEachFeature : Member → Path → js unit) : js unit :=
  match geojsonData with
  | FeatureCollection features => addData features style onEachFeature
  | NotGeoJSON => throw (Error "Invalid GeoJSON object.")
  end.

(** [L.marker(latlng)] *)
Definition L_marker (latlng : Q * Q) : js Marker :=
  n ← L_stamp;
  mret {| marker_stamp := n; marker_latlng := latlng |}.

(** [marker.addTo(map)] *)
Definition marker_addTo_map (m : Marker) : js Marker :=
  modify (λ p, set_leaflet (last_stamp p) (map_markers p ++ [m])
                 (floodLayer p) (landslideLayer p) (liquefactionLayer p) p);;
  mret m.

(** [map.removeLayer(m)] for the value of [currentMarker]: Leaflet reads the
    stamp of its argument, which throws on [undefined]. *)
Definition map_removeMarker (m : option Marker) : js unit :=
  match m with
  | None =>
      throw (TypeError "Cannot read properties of undefined (reading '_leaflet_id')")
  | Some m =>
      modify (λ p,
        set_leaflet (last_stamp p)
          (filter (λ x, marker_stamp x ≠ marker_stamp m) (map_markers p))
          (floodLayer p) (landslideLayer p) (liquefactionLayer p) p)
  end.

(** ** document *)

Definition classList_add (id cls : string) : js unit :=
  modify (λ p, set_document ({[ (id, cls) ]} ∪ classList p) (innerHTML p) (style p) p).

Definition classList_remove (id cls : string) : js unit :=
  modify (λ p, set_document (classList p ∖ {[ (id, cls) ]}) (innerHTML p) (style p) p).

Definition set_innerHTML (id html : string) : js unit :=
  modify (λ p, set_document (classList p) (<[ id := html ]> (innerHTML p)) (style p) p).

Definition set_style (id prop v : string) : js unit :=
  modify (λ p, set_document (classList p) (innerHTML p) (<[ (id, prop) := v ]> (style p)) p).

(** ** window *)

Definition alert (msg : string) : js unit :=
  modify (λ p, set_window (alerts p ++ [msg]) (console p) (requests p)
                 (timers p) (reloaded p) p).

Definition console_error (label : string) (error : exn) : js unit :=
  modify (λ p, set_window (alerts p) (console p ++ [(label, error)]) (requests p)
                 (timers p) (reloaded p) p).

Definition setTimeout (cb : Callback) (ms : nat) : js unit :=
  modify (λ p, set_window (alerts p) (console p) (requests p)
                 (timers p ++ [(ms, cb)]) (reloaded p) p).

Definition location_reload : js unit :=
  modify (λ p, set_window (alerts p) (console p) (requests p) (timers p) true p).

Definition send (r : Request) : js unit :=
  modify (λ p, set_window (alerts p) (console p) (requests p ++ [r])
                 (timers p) (reloaded p) p).

(** [await fetch(...)]: the request goes out; a rejection is thrown at the
    [await]. *)
Definition settle {A : Type} (r : FetchResult A) : js (Response A) :=
  match r with
  | Rejected => throw (TypeError "Failed to fetch")
  | Responded ok body => mret {| response_ok := ok; response_body := body |}
  end.

(** [await response.json()] *)
Definition json {A : Type} (r : Response A) : js A :=
  match response_body r with
  | Some a => mret a
  | None => throw (SyntaxError "Unexpected token in JSON")
  end.

(** Time passes: the timers that are due run, the others get closer. *)
Definition run_callback (cb : Callback) : js unit :=
  match cb with
  | LocationReload => location_reload
  end.

Definition elapse (ms : nat) (p : Page) : Page :=
  let due := filter (λ t, t.1 ≤ ms)%nat (timers p) in
  let pending := (λ t, (t.1 - ms, t.2)%nat) <$> filter (λ t, ms < t.1)%nat (timers p) in
  foldl (λ p t, exec (run_callback t.2) p)
    (set_window (alerts p) (console p) (requests p) pending (reloaded p) p) due.

(** ** The script *)

(** [const COLORS = {...}] *)
Definition COLORS : gmap string value :=
  list_to_map
    [ ("LS", VStr "#2ecc71");
      ("MS", VStr "#f39c12");
      ("HS", VStr "#e67e22");
      ("VHS", VStr "#e74c3c") ].

Section WithHost.
Context `{Host} (net : Network).

(** ToString, as a template literal applies it *)
Definition ToString (v : value) : string :=
  match v with
  | VUndefined => "undefined"
  | VNull => "null"
  | VBool true => "true"
  | VBool false => "false"
  | VNum q => Number_toString q
  | VStr s => s
  | VBuiltin name =>
      if String.eqb name "__proto__" then "[object Object]"
      else "function " +:+ name +:+ "() { [native code] }"
  end.

(** ToPropertyKey of a scalar used as a computed key *)
Definition ToPropertyKey (v : value) : string := ToString v.

(** [await fetch(url)] on a hazard endpoint and on the upload endpoint *)
Definition fetch (url : string) : js (Response GeoJSON) :=
  send (GET url);;
  settle (hazard_api net url).

Definition fetch_POST (url : string) (body : FormData)
    : js (Response (gmap string value)) :=
  send (POST url body);;
  settle (upload_api net body).

(** [v.toLocaleString()] *)
Definition toLocaleString (v : value) : outcome string :=
  match v with
  | VUndefined | VNull =>
      Throw (TypeError "Cannot read properties of undefined (reading 'toLocaleString')")
  | VNum q => Normal (Number_toLocaleString q)
  | _ => Normal (ToString v)
  end.

(** [feature.properties], on its way to [.susceptibility] and the like:
    reading a property of null throws. *)
Definition feature_properties (feature : Member) : js Feature :=
  match member_properties feature with
  | Some object => mret {| properties := object |}
  | None =>
      throw (TypeError "Cannot read properties of null (reading 'susceptibility')")
  end.

(** The [style] option of [addGeoJSONLayer], on a feature whose properties
    have been read *)
Definition style_option (feature : Feature) : PathOptions :=
  let susceptibility := Get (properties feature) "susceptibility" in
  {| fillColor := or_else (Get COLORS (ToPropertyKey susceptibility)) (VStr "#95a5a6");
     weight := 1;
     opacity := 0.8;
     color := "white";
     fillOpacity := 0.6 |}.

(** The last interpolation of the popup template *)
Definition area_line (shape_area : value) : js string :=
  if truthy shape_area then
    s ← lift (toLocaleString shape_area);
    mret ("<br>Area: " +:+ s +:+ " sq units")
  else mret "".

(** The popup template around its last interpolation *)
Definition popup_head (hazardType : string) (feature : Feature) : string :=
  nl +:+ spaces 16 +:+ "<strong>" +:+ capitalize hazardType
     +:+ " Susceptibility</strong><br>" +:+
  nl +:+ spaces 16 +:+ "Level: "
     +:+ ToString (Get (properties feature) "susceptibility") +:+ "<br>" +:+
  nl +:+ spaces 16 +:+ "Original Code: "
     +:+ ToString (Get (properties feature) "original_code") +:+
  nl +:+ spaces 16.

Definition popup_tail : string := nl +:+ spaces 12.

Definition popupContent (hazardType : string) (feature : Feature) : js string :=
  area ← area_line (Get (properties feature) "shape_area");
  mret (popup_head hazardType feature +:+ area +:+ popup_tail).

(** The [onEachFeature] option of [addGeoJSONLayer], on a feature whose
    properties have been read *)
Definition onEachFeature_option (layerGroup : LayerVar) (hazardType : string)
    (feature : Feature) (layer : Path) : js unit :=
  content ← popupContent hazardType feature;
  addTo (bindPopup content layer) layerGroup.

(** [addGeoJSONLayer]: both callbacks start by reading [feature.properties]. *)
Definition addGeoJSONLayer (geojsonData : GeoJSON) (layerGroup : LayerVar)
    (hazardType : string) : js unit :=
  L_geoJSON geojsonData
    (λ feature, properties_read ← feature_properties feature;
                mret (style_option properties_read))
    (λ feature layer,
       properties_read ← feature_properties feature;
       onEachFeature_option layerGroup hazardType properties_read layer).

(** [loadHazardData] is [async]: each [await] suspends it until the fetch or
    the parse settles, and a rejection is thrown at the [await]; what
    [addGeoJSONLayer] throws is thrown inside the same [try].  It is
    embedded run to its end: the handlers that may run while it is suspended
    do not touch the children of the layer groups, which is all it writes
    besides the request log, the console and the stamp counter. *)
Definition loadHazardData : js unit :=
  try_catch
    (floodResponse ← fetch "/api/flood-data/";
     (if response_ok floodResponse then
        floodData ← json floodResponse;
        addGeoJSONLayer floodData FloodLayer "flood"
      else mret tt);;
     landslideResponse ← fetch "/api/landslide-data/";
     (if response_ok landslideResponse then
        landslideData ← json landslideResponse;
        addGeoJSONLayer landslideData LandslideLayer "landslide"
      else mret tt);;
     liquefactionResponse ← fetch "/api/liquefaction-data/";
     (if response_ok liquefactionResponse then
        liquefactionData ← json liquefactionResponse;
        addGeoJSONLayer liquefactionData LiquefactionLayer "liquefaction"
      else mret tt))
    (λ error, console_error "Error loading hazard data:" error).

(** [initMap] up to its call of the loader (lines 17 to 27), on the parsed
    document: a new map (its view and tile layer are presentation) with
    three empty layer groups on it; [currentMarker] is still [undefined],
    nothing has been shown, logged, requested or scheduled.  [L.map] needs a
    container that holds no map yet, so this happens once, on the parsed
    document, and is not a handler on pages. *)
Definition map_created (cl : gset (string * string)) (html : gmap string string)
    (st : gmap (string * string) string) : Page :=
  let empty := {| layers := []; on_map := true |} in
  {| last_stamp := 0; map_markers := [];
     floodLayer := empty; landslideLayer := empty; liquefactionLayer := empty;
     currentMarker := None;
     classList := cl; innerHTML := html; style := st;
     alerts := []; console := []; requests := []; timers := [];
     reloaded := false |}.

(** [initMap] on the parsed document.  Line 30 starts the loader and does
    not await it: [initMap] returns while the first request is out, and the
    loader goes on as its responses come in.  The page is taken here once
    the loader has settled, no handler having run meanwhile; the click
    listener [initMap] installs is [onMapClick], see [dispatch]. *)
Definition initMap (cl : gset (string * string)) (html : gmap string string)
    (st : gmap (string * string) string) : Page :=
  exec loadHazardData (map_created cl html st).

Definition getHazardInfoForLocation (lat lng : Q) (container : string) : js unit :=
  set_innerHTML container "<p>Analyzing hazard levels...</p>";;
  try_catch
    (let hazardInfo :=
       [ "<div class=" +:+ dq +:+ "hazard-item" +:+ dq +:+ ">";
         "<strong>Flood Susceptibility:</strong> <span class=" +:+ dq
           +:+ "analyzing" +:+ dq +:+ ">Analyzing...</span><br>";
         "<strong>Landslide Susceptibility:</strong> <span class=" +:+ dq
           +:+ "analyzing" +:+ dq +:+ ">Analyzing...</span><br>";
         "<strong>Liquefaction Susceptibility:</strong> <span class=" +:+ dq
           +:+ "analyzing" +:+ dq +:+ ">Analyzing...</span>";
         "</div>";
         "<div class=" +:+ dq +:+ "note" +:+ dq +:+ ">";
         "<small><em>Note: Click on colored areas for detailed information</em></small>";
         "</div>" ] in
     set_innerHTML container (String.concat "" hazardInfo))
    (λ error,
       set_innerHTML container "<p>Error retrieving hazard information</p>";;
       console_error "Error getting hazard info:" error).

Definition showLocationInfo (lat lng : Q) : js unit :=
  classList_remove "sidebar" "hidden";;
  set_innerHTML "location-info"
    (nl +:+ spaces 8 +:+ "<strong>Selected Location</strong><br>" +:+
     nl +:+ spaces 8 +:+ "Latitude: " +:+ Number_toFixed 6 lat +:+ "<br>" +:+
     nl +:+ spaces 8 +:+ "Longitude: " +:+ Number_toFixed 6 lng +:+
     nl +:+ spaces 4);;
  getHazardInfoForLocation lat lng "hazard-details".

(** [onMapClick(e)] with [e.latlng = (lat, lng)] *)
Definition onMapClick (e_latlng : Q * Q) : js unit :=
  let lat := e_latlng.1 in
  let lng := e_latlng.2 in
  marker ← gets currentMarker;
  (if bool_decide (is_Some marker) then map_removeMarker marker else mret tt);;
  m ← L_marker (lat, lng);
  m ← marker_addTo_map m;
  modify (set_currentMarker (Some m));;
  showLocationInfo lat lng.

(** [setupLayerToggles]: the [change] listener it installs on the element
    with the given id, applied to [e.target.checked]. *)
Definition setupLayerToggles (id : string) (e_target_checked : bool) : js unit :=
  if String.eqb id "flood-toggle" then
    if e_target_checked then map_addLayer FloodLayer
    else map_removeLayer FloodLayer
  else if String.eqb id "landslide-toggle" then
    if e_target_checked then map_addLayer LandslideLayer
    else map_removeLayer LandslideLayer
  else if String.eqb id "liquefaction-toggle" then
    if e_target_checked then map_addLayer LiquefactionLayer
    else map_removeLayer LiquefactionLayer
  else mret tt.

Definition showUploadProgress : js unit :=
  classList_add "upload-form" "hidden";;
  classList_remove "upload-progress" "hidden".

(** The template literal of [showUploadResult] *)
Definition result_html (success : bool) (message : value) : string :=
  nl +:+ spaces 8 +:+ "<div class=" +:+ dq
     +:+ (if success then "success" else "error") +:+ dq +:+ ">" +:+
  nl +:+ spaces 12 +:+ ToString message +:+
  nl +:+ spaces 8 +:+ "</div>" +:+
  nl +:+ spaces 4.

Definition showUploadResult (success : bool) (message : value) : js unit :=
  classList_add "upload-progress" "hidden";;
  classList_remove "upload-result" "hidden";;
  set_innerHTML "result-message" (result_html success message);;
  (if success then
     set_style "result-message" "color" "#27ae60";;
     set_style "result-message" "backgroundColor" "#d5f4e6"
   else
     set_style "result-message" "color" "#e74c3c";;
     set_style "result-message" "backgroundColor" "#fadbd8");;
  set_style "result-message" "padding" "1rem";;
  set_style "result-message" "borderRadius" "5px";;
  set_style "result-message" "marginTop" "1rem".

(** The inputs of the upload form when it is submitted:
    [fileInput.files] and the value of the dataset-type select. *)
Record UploadForm : Type := {
  files : list File;
  datasetType_value : string
}.

(** [handleFileUpload(e)]; [e.preventDefault()] has no effect on the page
    state kept here, and the [FormData] is built in one step. *)
Definition handleFileUpload (form : UploadForm) : js unit :=
  let datasetType := datasetType_value form in
  match files form !! 0%nat with
  | None => alert "Please select a shapefile to upload"
  | Some file =>
      if negb (truthy (VStr datasetType)) then
        alert "Please select a dataset type"
      else
        let formData := {| shapefile := file; dataset_type := datasetType |} in
        showUploadProgress;;
        try_catch
          (response ← fetch_POST "/api/upload-shapefile/" formData;
           result ← json response;
           if response_ok response then
             showUploadResult true
               (VStr ("Successfully processed "
                        +:+ ToString (Get result "records_created") +:+ " records"));;
             setTimeout LocationReload 2000
           else
             showUploadResult false
               (or_else (Get result "error") (VStr "Upload failed")))
          (λ error,
             showUploadResult false (VStr "Network error occurred");;
             console_error "Upload error:" error)
  end.

(** ** Events *)

Inductive Event : Type :=
  | MapClick (latlng : Q * Q)
  | Change (id : string) (checked : bool)
  | Submit (form : UploadForm)
  | Elapse (ms : nat).

Definition dispatch (e : Event) : js unit :=
  match e with
  | MapClick latlng => onMapClick latlng
  | Change id checked => setupLayerToggles id checked
  | Submit form => handleFileUpload form
  | Elapse ms => modify (elapse ms)
  end.

(** The page after a run of events; an exception that escapes a handler is
    reported by the browser and the page carries on. *)
Definition run (es : list Event) (p : Page) : Page :=
  foldl (λ p e, exec (dispatch e) p) p es.

End WithHost.

(** ** The rest of the script: the upload dialog and the search box *)

(** The upload dialog reads its two inputs from the document and
    [form.reset()] writes them: the page is taken together with what the
    inputs hold, and with the value the dataset-type select starts with
    (the HTML sets it). *)
Record Dialog : Type := {
  dialog_page : Page;
  dialog_form : UploadForm;
  select_default : string
}.

(** Run a handler on the page of the dialog; an exception that escapes it is
    reported by the browser. *)
Definition on_page (m : js unit) (d : Dialog) : Dialog :=
  {| dialog_page := exec m (dialog_page d);
     dialog_form := dialog_form d;
     select_default := select_default d |}.

(** [form.reset()]: the file input holds no file, the select is back at its
    default option. *)
Definition form_reset (d : Dialog) : Dialog :=
  {| dialog_page := dialog_page d;
     dialog_form := {| files := []; datasetType_value := select_default d |};
     select_default := select_default d |}.

Definition resetUploadForm (d : Dialog) : Dialog :=
  form_reset
    (on_page (classList_remove "upload-form" "hidden";;
              classList_add "upload-progress" "hidden";;
              classList_add "upload-result" "hidden") d).

(** [setupUploadModal]: the listener it installs on the element with the
    given id ([click] on the three buttons, [submit] on the form). *)
Definition setupUploadModal `{Host} (net : Network) (id : string) (d : Dialog)
    : Dialog :=
  if String.eqb id "upload-btn" then
    on_page (classList_remove "upload-modal" "hidden") d
  else if String.eqb id "close-modal" then
    resetUploadForm (on_page (classList_add "upload-modal" "hidden") d)
  else if String.eqb id "cancel-upload" then
    resetUploadForm (on_page (classList_add "upload-modal" "hidden") d)
  else if String.eqb id "upload-form" then
    on_page (handleFileUpload net (dialog_form d)) d
  else d.

(** White space and line terminators among the characters a [string] holds
    here (code units below 256): TAB, LF, VT, FF, CR, SP and NBSP. *)
Definition is_white_space (c : ascii) : bool :=
  let n := nat_of_ascii c in
  ((9 <=? n)%nat && (n <=? 13)%nat) || (n =? 32)%nat || (n =? 160)%nat.

Fixpoint trimStart (s : string) : string :=
  match s with
  | EmptyString => ""
  | String c rest => if is_white_space c then trimStart rest else s
  end.

Fixpoint trimEnd (s : string) : string :=
  match s with
  | EmptyString => ""
  | String c rest =>
      match trimEnd rest with
      | EmptyString => if is_white_space c then "" else String c ""
      | kept => String c kept
      end
  end.

(** [s.trim()] *)
Definition trim (s : string) : string := trimEnd (trimStart s).

(** [performSearch()], with the value of the search input *)
Definition performSearch (location_search_value : string) : js unit :=
  let searchTerm := trim location_search_value in
  if negb (truthy (VStr searchTerm)) then
    alert "Please enter a location to search"
  else
    alert ("Search functionality is basic in this demo. Searched for: "
             +:+ dq +:+ searchTerm +:+ dq).

(** [setupSearch]: the two listeners it installs, a [click] on the button
    and a [keypress] in the input with [e.key]. *)
Inductive SearchEvent : Type :=
  | SearchClick
  | SearchKeypress (e_key : string).

Definition setupSearch (e : SearchEvent) (location_search_value : string)
    : js unit :=
  match e with
  | SearchClick => performSearch location_search_value
  | SearchKeypress e_key =>
      if String.eqb e_key "Enter" then performSearch location_search_value
      else mret tt
  end.

(** ** Vocabulary of the properties *)

(** The endpoint, the hazard-type label and the toggle of each layer. *)
Definition url_of (l : LayerVar) : string :=
  match l with
  | FloodLayer => "/api/flood-data/"
  | LandslideLayer => "/api/landslide-data/"
  | LiquefactionLayer => "/api/liquefaction-data/"
  end.

Definition toggle_of (l : LayerVar) : string :=
  match l with
  | FloodLayer => "flood-toggle"
  | LandslideLayer => "landslide-toggle"
  | LiquefactionLayer => "liquefaction-toggle"
  end.

Definition hazardType_of (l : LayerVar) : string :=
  match l with
  | FloodLayer => "flood"
  | LandslideLayer => "landslide"
  | LiquefactionLayer => "liquefaction"
  end.

#[global] Instance LayerVar_eq_dec : EqDecision LayerVar.
Proof. solve_decision. Defined.


(** The layers whose dataset is requested before that of [l]. *)
Definition earlier (l : LayerVar) : list LayerVar :=
  match l with
  | FloodLayer => []
  | LandslideLayer => [FloodLayer]
  | LiquefactionLayer => [FloodLayer; LandslideLayer]
  end.

(** The features rendered into a layer group, in order. *)
Definition features_of (l : LayerVar) (p : Page) : list Member :=
  path_feature <$> layers (group l p).

(** The shapes of a layer group that show on the map. *)
Definition visible (l : LayerVar) (p : Page) : list Path :=
  if on_map (group l p) then layers (group l p) else [].

Definition visible_shapes (p : Page) : list Path :=
  visible FloodLayer p ++ visible LandslideLayer p ++ visible LiquefactionLayer p.

(** The members [L.geoJSON] draws: those with a geometry, up to the first
    of them whose properties are null, where the callbacks throw. *)
Fixpoint drawn (features : list Member) : list Member :=
  match features with
  | [] => []
  | feature :: rest =>
      if has_geometry feature then
        match member_properties feature with
        | Some _ => feature :: drawn rest
        | None => []
        end
      else drawn rest
  end.

(** The collection renders: every member with a geometry has a properties
    object. *)
Fixpoint renders (features : list Member) : bool :=
  match features with
  | [] => true
  | feature :: rest =>
      if has_geometry feature then
        match member_properties feature with
        | Some _ => renders rest
        | None => false
        end
      else renders rest
  end.

Definition drawn_of (geojsonData : GeoJSON) : list Member :=
  match geojsonData with
  | FeatureCollection features => drawn features
  | NotGeoJSON => []
  end.

Definition renders_body (geojsonData : GeoJSON) : bool :=
  match geojsonData with
  | FeatureCollection features => renders features
  | NotGeoJSON => false
  end.

(** A stanza of the loader goes through without throwing: the response is
    either not OK (its body is never read) or OK with a body that parses
    and renders. *)
Definition completes (r : FetchResult GeoJSON) : bool :=
  match r with
  | Responded false _ => true
  | Responded true (Some body) => renders_body body
  | _ => false
  end.

(** The request of layer [l] is reached: all earlier ones completed. *)
Definition reached (net : Network) (l : LayerVar) : bool :=
  forallb (λ l', completes (hazard_api net (url_of l'))) (earlier l).

(** The result panel of the upload dialog shows [message]. *)
Definition result_shown `{Host} (p : Page) (success : bool) (message : value) : Prop :=
  (("upload-result", "hidden") ∉ classList p) ∧
  innerHTML p !! "result-message" = Some (result_html success message).

(** At most the current marker is on the map. *)
Definition marker_inv (p : Page) : Prop :=
  map_markers p = option_list (currentMarker p).

(** The [DOMContentLoaded] listener: [initMap] runs, the other three calls
    install the listeners that [dispatch], [setupUploadModal] and
    [setupSearch] stand for. *)
Definition DOMContentLoaded `{Host} (net : Network)
    (cl : gset (string * string)) (html : gmap string string)
    (st : gmap (string * string) string) : Page :=
  initMap net cl html st.

(** The four table entries, as the claim lists them. *)
Definition color_table : list (string * string) :=
  [ ("LS", "#2ecc71"); ("MS", "#f39c12"); ("HS", "#e67e22"); ("VHS", "#e74c3c") ].

(** The last interpolation of the popup, as a string: [area_line] never
    throws, because [toLocaleString] is only called on a truthy value. *)
Definition area_segment `{Host} (shape_area : value) : string :=
  if truthy shape_area then
    match toLocaleString shape_area with
    | Normal s => "<br>Area: " +:+ s +:+ " sq units"
    | Throw _ => ""
    end
  else "".

(** The properties of a member that is drawn, as the callbacks read them. *)
Definition read_properties (feature : Member) : Feature :=
  {| properties := default ∅ (member_properties feature) |}.

(** The shape of a drawn member whose stamp is [n]. *)
Definition shape `{Host} (n : nat) (hazardType : string) (feature : Member) : Path :=
  {| path_stamp := n; path_feature := feature;
     path_options := style_option (read_properties feature);
     path_popup :=
       Some (popup_head hazardType (read_properties feature)
               +:+ area_segment (Get (properties (read_properties feature)) "shape_area")
               +:+ popup_tail) |}.

(** The layers [addGeoJSONLayer] builds of the drawn members when the last
    stamp handed out is [n]. *)
Fixpoint geoJSON_paths `{Host} (n : nat) (hazardType : string)
    (data : list Member) : list Path :=
  match data with
  | [] => []
  | feature :: rest =>
      shape (S n) hazardType feature :: geoJSON_paths (S n) hazardType rest
  end.

(** The page [addGeoJSONLayer] leaves behind, whether it returns or throws. *)
Definition rendered `{Host} (data : GeoJSON) (l : LayerVar)
    (hazardType : string) (p : Page) : Page :=
  set_group l
    {| layers := layers (group l p)
                   ++ geoJSON_paths (last_stamp p) hazardType (drawn_of data);
       on_map := on_map (group l p) |}
    (set_leaflet (last_stamp p + length (drawn_of data)) (map_markers p)
       (floodLayer p) (landslideLayer p) (liquefactionLayer p) p).

(** What [addGeoJSONLayer] throws on a body that does not render. *)
Definition render_error (data : GeoJSON) : exn :=
  match data with
  | FeatureCollection _ =>
      TypeError "Cannot read properties of null (reading 'susceptibility')"
  | NotGeoJSON => Error "Invalid GeoJSON object."
  end.

(** One of the three stanzas of [loadHazardData]: request the dataset of
    [l] and, if the response is OK, parse and render it. *)
Definition load_stanza `{Host} (net : Network) (l : LayerVar) : js unit :=
  response ← fetch net (url_of l);
  if response_ok response then
    data ← json response;
    addGeoJSONLayer data l (hazardType_of l)
  else mret tt.

(** Two pages with the same Leaflet objects and the same [currentMarker]. *)
Definition same_map (p p' : Page) : Prop :=
  map_markers p' = map_markers p ∧
  currentMarker p' = currentMarker p ∧
  floodLayer p' = floodLayer p ∧
  landslideLayer p' = landslideLayer p ∧
  liquefactionLayer p' = liquefactionLayer p.

(** What a submitted upload ends in, by the response to its request:
    the panel class, the message shown, the timer set and what is logged. *)
Definition upload_report `{Host} (r : FetchResult (gmap string value))
    : bool * value * list (nat * Callback) * list (string * exn) :=
  match r with
  | Responded true (Some result) =>
      (true,
       VStr ("Successfully processed "
               +:+ ToString (Get result "records_created") +:+ " records"),
       [(2000%nat, LocationReload)], [])
  | Responded false (Some result) =>
      (false, or_else (Get result "error") (VStr "Upload failed"), [], [])
  | Responded _ None =>
      (false, VStr "Network error occurred", [],
       [("Upload error:", SyntaxError "Unexpected token in JSON")])
  | Rejected =>
      (false, VStr "Network error occurred", [],
       [("Upload error:", TypeError "Failed to fetch")])
  end.






(** Every character of the string is white space. *)
Fixpoint white_space_only (s : string) : bool :=
  match s with
  | EmptyString => true
  | String c rest => is_white_space c && white_space_only rest
  end.

(** The first and the last character of a string. *)
Definition first_char (s : string) : option ascii :=
  match s with
  | EmptyString => None
  | String c _ => Some c
  end.

Fixpoint last_char (s : string) : option ascii :=
  match s with
  | EmptyString => None
  | String c EmptyString => Some c
  | String _ rest => last_char rest
  end.



(** The three panels of the upload dialog as they are before a submission:
    the form shows, the progress indicator and the result panel do not. *)
Definition panels_idle (p : Page) : Prop :=
  (("upload-form", "hidden") ∉ classList p) ∧
  (("upload-progress", "hidden") ∈ classList p) ∧
  (("upload-result", "hidden") ∈ classList p).


(** Two pages that differ at most in their alerts. *)
Definition same_but_alerts (p p' : Page) : Prop :=
  same_map p p' ∧ last_stamp p' = last_stamp p ∧
  classList p' = classList p ∧ innerHTML p' = innerHTML p ∧ style p' = style p ∧
  console p' = console p ∧ requests p' = requests p ∧
  timers p' = timers p ∧ reloaded p' = reloaded p.




(** The requests the loader sends: those that are reached, in order. *)
Definition sent_requests (net : Network) : list Request :=
  (λ l, GET (url_of l))
    <$> List.filter (reached net) [FloodLayer; LandslideLayer; LiquefactionLayer].

(** ** Sample data *)

(** A host that prints integral numbers in decimal and without digit
    grouping; other numbers print as a fraction. *)
Definition print_number (q : Q) : string :=
  if Pos.eqb (Qden (Qred q)) 1 then pretty (Qnum (Qred q))
  else pretty (Qnum (Qred q)) +:+ "/" +:+ pretty (Zpos (Qden (Qred q))).

Definition plain_host : Host := {|
  Number_toString := print_number;
  Number_toLocaleString := print_number;
  Number_toFixed := λ digits q, print_number q
|}.

Definition properties_of (susceptibility original_code : string)
    (shape_area : option Q) : Feature :=
  {| properties :=
       list_to_map
         ([ ("susceptibility", VStr susceptibility);
            ("original_code", VStr original_code) ]
          ++ match shape_area with
             | Some a => [ ("shape_area", VNum a) ]
             | None => []
             end) |}.

(** A feature with a geometry and these properties. *)
Definition feature_of (susceptibility original_code : string)
    (shape_area : option Q) : Member :=
  {| has_geometry := true;
     member_properties :=
       Some (properties (properties_of susceptibility original_code shape_area)) |}.

(** A feature without geometry, and one without properties. *)
Definition no_geometry : Member :=
  {| has_geometry := false; member_properties := Some ∅ |}.

Definition no_properties : Member :=
  {| has_geometry := true; member_properties := None |}.

(** The page of an empty document with nothing in its layers and nothing
    in its traces: as it is when the map has just been created, and as it
    is found later when no dataset has arrived and nothing was selected. *)
Definition blank : Page := map_created ∅ ∅ ∅.

(** The same page with the liquefaction toggle unchecked. *)
Definition liquefaction_unchecked : Page :=
  exec (map_removeLayer LiquefactionLayer) blank.

(** Flood is unreachable; the other two endpoints answer with one feature. *)
Definition flood_down : Network :=
  {| hazard_api := λ url,
       if String.eqb url "/api/flood-data/" then Rejected
       else Responded true (Some (FeatureCollection [feature_of "HS" "L7" (Some 12)]));
     upload_api := λ _, Rejected |}.

(** Landslide answers 500; the other two endpoints answer with one feature. *)
Definition landslide_500 : Network :=
  {| hazard_api := λ url,
       if String.eqb url "/api/landslide-data/" then Responded false None
       else Responded true (Some (FeatureCollection [feature_of "VHS" "F1" None]));
     upload_api := λ _, Rejected |}.

(** The upload endpoint answers with the given response. *)
Definition upload_answers (r : FetchResult (gmap string value)) : Network :=
  {| hazard_api := λ _, Rejected; upload_api := λ _, r |}.

Definition filled_form : UploadForm :=
  {| files := [ {| file_name := "hazard.zip" |} ]; datasetType_value := "flood" |}.

(** Flood answers with a feature without properties after one that is
    complete; the other two endpoints answer with one feature. *)
Definition flood_unreadable : Network :=
  {| hazard_api := λ url,
       if String.eqb url "/api/flood-data/" then
         Responded true
           (Some (FeatureCollection [feature_of "LS" "F0" None; no_properties]))
       else Responded true (Some (FeatureCollection [feature_of "HS" "L7" (Some 12)]));
     upload_api := λ _, Rejected |}.

(** The upload dialog with a file and a dataset type selected, on a page
    where nothing has happened yet. *)
Definition filled_dialog : Dialog :=
  {| dialog_page := blank; dialog_form := filled_form; select_default := "" |}.

(** * Properties *)

(** ** Strings *)

Lemma append_assoc (a b c : string) : (a +:+ b) +:+ c = a +:+ (b +:+ c).
Proof.
  induction a as [|x a IH]; [reflexivity|].
  change (String x ((a +:+ b) +:+ c) = String x (a +:+ (b +:+ c))).
  by rewrite IH.
Qed.

Lemma append_nil_r (a : string) : a +:+ "" = a.
Proof.
  induction a as [|x a IH]; [reflexivity|].
  change (String x (a +:+ "") = String x a). by rewrite IH.
Qed.

Lemma contains_here (t post : string) : contains (t +:+ post) t.
Proof. by exists "", post. Qed.

Lemma contains_refl (t : string) : contains t t.
Proof. exists "", "". change (t = t +:+ ""). by rewrite append_nil_r. Qed.

Lemma contains_app_l (s t u : string) : contains t u → contains (s +:+ t) u.
Proof.
  intros (pre & post & ->). exists (s +:+ pre), post. by rewrite append_assoc.
Qed.

Lemma contains_app_r (s t u : string) : contains s u → contains (s +:+ t) u.
Proof.
  intros (pre & post & ->). exists pre, (post +:+ t).
  by rewrite !append_assoc.
Qed.

Lemma prefix_append (t post : string) : String.prefix t (t +:+ post) = true.
Proof.
  induction t as [|x t IH]; [by destruct post|].
  change (String.prefix (String x t) (String x (t +:+ post)) = true).
  simpl. destruct (ascii_dec x x); [exact IH | congruence].
Qed.

Lemma includes_prefix (s t : string) : String.prefix t s = true → includes s t = true.
Proof. intros Hp. destruct s; cbn [includes]; by rewrite Hp. Qed.

(** The test [includes] finds every occurrence. *)
Lemma includes_complete (s t : string) : contains s t → includes s t = true.
Proof.
  intros (pre & post & ->).
  induction pre as [|x pre IH].
  - change (includes (t +:+ post) t = true).
    apply includes_prefix, prefix_append.
  - change (includes (String x (pre +:+ t +:+ post)) t = true).
    cbn [includes]. rewrite IH. by destruct (String.prefix t _).
Qed.

Lemma not_contains (s t : string) : includes s t = false → ¬ contains s t.
Proof. intros Hf Hc. apply includes_complete in Hc. congruence. Qed.

(** Walk down a template to the interpolation looked for. *)
Ltac find_in_template :=
  solve [ apply contains_here
        | apply contains_refl
        | apply contains_app_l; find_in_template
        | apply contains_app_r; find_in_template ].

Section Properties.
Context `{Host} (net : Network).

(** ** Colour resolution *)

Lemma COLORS_lookup_table (code color : string) :
  (code, color) ∈ color_table → COLORS !! code = Some (VStr color).
Proof.
  unfold color_table. rewrite !elem_of_cons, elem_of_nil.
  intros [E|[E|[E|[E|[]]]]]; injection E as -> ->; reflexivity.
Qed.

Lemma color_table_truthy (code color : string) :
  (code, color) ∈ color_table → truthy (VStr color) = true.
Proof.
  unfold color_table. rewrite !elem_of_cons, elem_of_nil.
  intros [E|[E|[E|[E|[]]]]]; injection E as -> ->; reflexivity.
Qed.

Lemma COLORS_lookup_other (key : string) :
  key ∉ color_table.*1 → COLORS !! key = None.
Proof.
  intros Hk. apply not_elem_of_list_to_map_1.
  intros Hin. apply Hk. revert Hin. cbn.
  rewrite !elem_of_cons, !elem_of_nil. tauto.
Qed.

Lemma inherited_not_listed (key : string) :
  key ∈ Object_prototype → key ∉ color_table.*1.
Proof.
  unfold Object_prototype. cbn. rewrite !elem_of_cons, !elem_of_nil.
  intros Hk Ht.
  repeat (destruct Hk as [->|Hk];
          [by repeat (destruct Ht as [Ht|Ht]; [discriminate Ht|])|]).
  done.
Qed.

Lemma Get_absent (o : gmap string value) (k : string) :
  o !! k = None → k ∉ Object_prototype → Get o k = VUndefined.
Proof.
  intros Ho Hk. unfold Get. rewrite Ho.
  by rewrite bool_decide_eq_false_2.
Qed.

Lemma Get_inherited (o : gmap string value) (k : string) :
  o !! k = None → k ∈ Object_prototype → Get o k = VBuiltin k.
Proof.
  intros Ho Hk. unfold Get. rewrite Ho.
  by rewrite bool_decide_eq_true_2.
Qed.

Lemma Get_own (o : gmap string value) (k : string) (v : value) :
  o !! k = Some v → Get o k = v.
Proof. intros Ho. unfold Get. by rewrite Ho. Qed.

(** C3: how the fill colour of a feature is resolved.  With [k] the
    susceptibility of the feature as a property key: a code of the table
    gets its colour; a missing susceptibility, and any key that is neither
    in the table nor a member of [Object.prototype], gets the fallback
    colour; but a key that names a member inherited from [Object.prototype]
    (such as the code [constructor]) gets that member, not the fallback. *)
Theorem fillColor_resolution (feature : Feature) :
  let k := ToPropertyKey (Get (properties feature) "susceptibility") in
  (∀ color, (k, color) ∈ color_table →
     fillColor (style_option feature) = VStr color) ∧
  (properties feature !! "susceptibility" = None →
     fillColor (style_option feature) = VStr "#95a5a6") ∧
  (k ∉ color_table.*1 → k ∉ Object_prototype →
     fillColor (style_option feature) = VStr "#95a5a6") ∧
  (k ∈ Object_prototype →
     fillColor (style_option feature) = VBuiltin k ∧
     fillColor (style_option feature) ≠ VStr "#95a5a6").
Proof.
  cbn zeta. unfold style_option; cbn [fillColor].
  set (k := ToPropertyKey _).
  split; [|split; [|split]].
  - intros color Hin. rewrite (Get_own _ _ _ (COLORS_lookup_table _ _ Hin)).
    unfold or_else. by rewrite (color_table_truthy _ _ Hin).
  - intros Hnone. subst k. rewrite (Get_absent _ _ Hnone); [reflexivity|].
    by apply (bool_decide_unpack _).
  - intros Hk Hp. by rewrite (Get_absent _ _ (COLORS_lookup_other _ Hk) Hp).
  - intros Hp.
    rewrite (Get_inherited _ _ (COLORS_lookup_other _ (inherited_not_listed _ Hp)) Hp).
    by split.
Qed.

(** ** The overlay renderer *)

Lemma toLocaleString_truthy (v : value) :
  truthy v = true → ∃ s, toLocaleString v = Normal s.
Proof. destruct v; cbn; intros Hv; try discriminate; eauto. Qed.

Lemma area_line_run (shape_area : value) (p : Page) :
  area_line shape_area p = (Normal (area_segment shape_area), p).
Proof.
  unfold area_line, area_segment.
  destruct (truthy shape_area) eqn:Hv; [|reflexivity].
  destruct (toLocaleString_truthy _ Hv) as [s Hs].
  unfold mbind, js_bind, lift. by rewrite Hs.
Qed.

Lemma popupContent_run (hazardType : string) (feature : Feature) (p : Page) :
  popupContent hazardType feature p =
  (Normal (popup_head hazardType feature
             +:+ area_segment (Get (properties feature) "shape_area")
             +:+ popup_tail), p).
Proof.
  unfold popupContent, mbind, js_bind. by rewrite area_line_run.
Qed.


Lemma features_geoJSON_paths (n : nat) (hazardType : string) (data : list Member) :
  path_feature <$> geoJSON_paths n hazardType data = data.
Proof. revert n; induction data as [|f data IH]; intros n; cbn; [done|]. by rewrite IH. Qed.

Lemma rendered_nothing (data : GeoJSON) (l : LayerVar) (hazardType : string)
    (p : Page) :
  drawn_of data = [] → rendered data l hazardType p = p.
Proof.
  intros Hd. unfold rendered. rewrite Hd.
  destruct p, l; cbn; rewrite Nat.add_0_r, app_nil_r;
    by repeat match goal with g : LayerGroup |- _ => destruct g end.
Qed.

(** The members that are drawn have a geometry and a properties object. *)
Lemma drawn_well_formed (data : list Member) (feature : Member) :
  feature ∈ drawn data →
  has_geometry feature = true ∧
  member_properties feature = Some (properties (read_properties feature)).
Proof.
  induction data as [|f data IH]; cbn [drawn]; [by intros ?%elem_of_nil|].
  destruct (has_geometry f) eqn:Hg; [|exact IH].
  destruct (member_properties f) as [object|] eqn:Hp; [|by intros ?%elem_of_nil].
  intros [->|Hin]%elem_of_cons; [|by apply IH].
  split; [done|]. unfold read_properties. by rewrite Hp.
Qed.





Lemma drawn_all_renders (data : list Member) :
  drawn data = data → renders data = true.
Proof.
  induction data as [|f data IH]; cbn [drawn renders]; [done|].
  destruct (has_geometry f) eqn:Hg.
  - destruct (member_properties f); [|done]. intros [= Hd]. by apply IH.
  - intros Hd.
    assert (f ∈ drawn data) as Hin by (rewrite Hd; apply elem_of_cons; by left).
    apply drawn_well_formed in Hin as [Hg' _]. congruence.
Qed.

(** What [L.geoJSON] does with the callbacks of the script: it stops at the
    first member with a geometry and no properties, having drawn the
    members before it. *)
Lemma addData_run (data : list Member) (l : LayerVar) (hazardType : string)
    (p : Page) :
  addData data
    (λ feature, properties_read ← feature_properties feature;
                mret (style_option properties_read))
    (λ feature layer,
       properties_read ← feature_properties feature;
       onEachFeature_option l hazardType properties_read layer) p =
  (if renders data then Normal tt
   else Throw (TypeError "Cannot read properties of null (reading 'susceptibility')"),
   rendered (FeatureCollection data) l hazardType p).
Proof.
  revert p. induction data as [|feature data IH]; intros p.
  - by rewrite rendered_nothing.
  - cbn [addData renders].
    destruct (has_geometry feature) eqn:Hg.
    + unfold mbind at 1, js_bind at 1. unfold mbind at 1, js_bind at 1.
      unfold feature_properties at 1.
      destruct (member_properties feature) as [object|] eqn:Hp.
      * cbn [mret js_ret]. unfold mbind at 1, js_bind at 1. cbn [L_stamp].
        unfold mbind at 1, js_bind at 1. unfold mbind at 1, js_bind at 1.
        unfold feature_properties at 1. rewrite ?Hp. cbn [mret js_ret].
        unfold onEachFeature_option at 1.
        unfold mbind at 1, js_bind at 1. rewrite popupContent_run.
        cbn [addTo modify]. rewrite IH. f_equal.
        unfold rendered. cbn [drawn_of drawn]. rewrite Hg, Hp.
        cbn [geoJSON_paths]. unfold shape, read_properties. rewrite Hp.
        destruct l; cbn; rewrite <- app_assoc, Nat.add_succ_r; reflexivity.
      * cbn [throw]. rewrite rendered_nothing; [done|].
        cbn [drawn_of drawn]. by rewrite Hg, Hp.
    + rewrite IH. unfold rendered. cbn [drawn_of drawn]. by rewrite Hg.
Qed.

(** [addGeoJSONLayer] returns normally when the body renders and throws
    otherwise; either way it leaves the page [rendered]. *)
Lemma addGeoJSONLayer_run (data : GeoJSON) (l : LayerVar)
    (hazardType : string) (p : Page) :
  addGeoJSONLayer data l hazardType p =
  (if renders_body data then Normal tt else Throw (render_error data),
   rendered data l hazardType p).
Proof.
  unfold addGeoJSONLayer, L_geoJSON. destruct data as [features|].
  - apply addData_run.
  - by rewrite rendered_nothing.
Qed.

(** ** The loader *)

Lemma layers_rendered (l' l : LayerVar) (data : GeoJSON)
    (hazardType : string) (p : Page) :
  layers (group l' (rendered data l hazardType p)) =
  layers (group l' p) ++
    (if decide (l' = l) then geoJSON_paths (last_stamp p) hazardType (drawn_of data)
     else []).
Proof. destruct l', l; cbn; by rewrite ?app_nil_r. Qed.




(** What one stanza does, by the response of its endpoint. *)
Lemma load_stanza_run (l : LayerVar) (p : Page) :
  load_stanza net l p =
  match hazard_api net (url_of l) with
  | Rejected => (Throw (TypeError "Failed to fetch"), exec (send (GET (url_of l))) p)
  | Responded false _ => (Normal tt, exec (send (GET (url_of l))) p)
  | Responded true None =>
      (Throw (SyntaxError "Unexpected token in JSON"), exec (send (GET (url_of l))) p)
  | Responded true (Some data) =>
      (if renders_body data then Normal tt else Throw (render_error data),
       rendered data l (hazardType_of l) (exec (send (GET (url_of l))) p))
  end.
Proof.
  unfold load_stanza, fetch, mbind, js_bind, send, modify. cbn.
  destruct (hazard_api net (url_of l)) as [|[|] [data|]]; cbn; try reflexivity.
  by rewrite addGeoJSONLayer_run.
Qed.

(** [loadHazardData] is its three stanzas, in order, inside one [try]. *)
Lemma loadHazardData_stanzas (p : Page) :
  loadHazardData net p =
  try_catch
    (load_stanza net FloodLayer;;
     load_stanza net LandslideLayer;;
     load_stanza net LiquefactionLayer)
    (λ error, console_error "Error loading hazard data:" error) p.
Proof.
  unfold loadHazardData, try_catch, load_stanza, mbind, js_bind. cbn.
  destruct (fetch net "/api/flood-data/" p) as [[r1|e1] p1]; [|reflexivity].
  destruct (if response_ok r1 then _ else _) as [[[]|e1'] p1']; [|reflexivity].
  destruct (fetch net "/api/landslide-data/" p1') as [[r2|e2] p2]; [|reflexivity].
  destruct (if response_ok r2 then _ else _) as [[[]|e2'] p2']; [|reflexivity].
  destruct (fetch net "/api/liquefaction-data/" p2') as [[r3|e3] p3]; reflexivity.
Qed.



(** Run the loader on each combination of the three responses, and of
    whether the bodies that arrive render. *)
Ltac loader_cases net :=
  unfold exec; rewrite loadHazardData_stanzas;
  unfold try_catch, mbind, js_bind;
  rewrite load_stanza_run;
  destruct (hazard_api net (url_of FloodLayer)) as [|[|] [flood|]] eqn:E1;
  try destruct (renders_body flood) eqn:R1;
  rewrite ?load_stanza_run;
  destruct (hazard_api net (url_of LandslideLayer)) as [|[|] [landslide|]] eqn:E2;
  try destruct (renders_body landslide) eqn:R2;
  rewrite ?load_stanza_run;
  destruct (hazard_api net (url_of LiquefactionLayer))
    as [|[|] [liquefaction|]] eqn:E3;
  try destruct (renders_body liquefaction) eqn:R3.


(** The loader leaves the markers, [currentMarker] and the visibility of
    the three groups alone. *)
Lemma loadHazardData_frame (p : Page) :
  let p' := exec (loadHazardData net) p in
  map_markers p' = map_markers p ∧
  currentMarker p' = currentMarker p ∧
  ∀ l, on_map (group l p') = on_map (group l p).
Proof.
  cbn zeta. loader_cases net; cbn [snd];
    (split; [|split; [|intros [| |]]]);
    reflexivity.
Qed.





(** The page after [DOMContentLoaded] has no marker. *)
Lemma loaded_marker_inv (cl : gset (string * string)) (html : gmap string string)
    (st : gmap (string * string) string) :
  marker_inv (DOMContentLoaded net cl html st).
Proof.
  unfold DOMContentLoaded, initMap.
  destruct (loadHazardData_frame (map_created cl html st)) as (Hm & Hc & _).
  unfold marker_inv. by rewrite Hm, Hc.
Qed.

(** ** The selection marker *)

Ltac unfold_js :=
  unfold mbind, js_bind, mret, js_ret, modify, gets, throw, lift, try_catch.

Lemma onMapClick_run (c : Q * Q) (p : Page) :
  let m := {| marker_stamp := S (last_stamp p); marker_latlng := c |} in
  returns (onMapClick c) p ∧
  currentMarker (exec (onMapClick c) p) = Some m ∧
  map_markers (exec (onMapClick c) p) =
    match currentMarker p with
    | Some m0 => filter (λ x, marker_stamp x ≠ marker_stamp m0) (map_markers p)
    | None => map_markers p
    end ++ [m].
Proof.
  destruct c as [lat lng].
  unfold returns, exec, onMapClick, showLocationInfo, getHazardInfoForLocation,
    L_marker, marker_addTo_map, map_removeMarker, classList_remove,
    set_innerHTML, L_stamp.
  unfold_js.
  destruct (currentMarker p) as [m0|]; cbn -[String.concat]; eauto.
Qed.

Lemma onMapClick_marker_inv (c : Q * Q) (p : Page) :
  marker_inv p →
  map_markers (exec (onMapClick c) p) =
    [ {| marker_stamp := S (last_stamp p); marker_latlng := c |} ] ∧
  marker_inv (exec (onMapClick c) p).
Proof.
  intros Hinv. destruct (onMapClick_run c p) as (_ & Hcur & Hmap).
  unfold marker_inv in *. rewrite Hcur, Hmap, Hinv.
  destruct (currentMarker p) as [m0|]; cbn; [|done].
  by rewrite decide_False by (intros Hne; by apply Hne).
Qed.

Lemma same_map_marker_inv (p p' : Page) :
  same_map p p' → marker_inv p → marker_inv p'.
Proof. intros (Hm & Hc & _) Hinv. unfold marker_inv. by rewrite Hm, Hc. Qed.

Lemma setupLayerToggles_markers (id : string) (checked : bool) (p : Page) :
  map_markers (exec (setupLayerToggles id checked) p) = map_markers p ∧
  currentMarker (exec (setupLayerToggles id checked) p) = currentMarker p.
Proof.
  unfold setupLayerToggles, exec.
  repeat (destruct (String.eqb id _)); destruct checked; by cbn.
Qed.

Lemma showUploadResult_run (success : bool) (message : value) (p : Page) :
  ∃ p', showUploadResult success message p = (Normal tt, p') ∧
        same_map p p' ∧
        alerts p' = alerts p ∧ requests p' = requests p ∧
        timers p' = timers p ∧ reloaded p' = reloaded p ∧
        console p' = console p ∧
        classList p' =
          ({[ ("upload-progress", "hidden") ]} ∪ classList p)
            ∖ {[ ("upload-result", "hidden") ]} ∧
        innerHTML p' = <[ "result-message" := result_html success message ]> (innerHTML p).
Proof.
  unfold showUploadResult, classList_add, classList_remove, set_innerHTML, set_style.
  unfold_js. destruct success; cbn; eexists; (split; [reflexivity|]);
    unfold same_map; cbn; tauto.
Qed.

Lemma handleFileUpload_same_map (form : UploadForm) (p : Page) :
  same_map p (exec (handleFileUpload net form) p).
Proof.
  unfold exec, handleFileUpload.
  destruct (files form !! 0%nat) as [file|]; [|by cbn].
  destruct (negb _); [by cbn|].
  unfold showUploadProgress, fetch_POST, send, settle, json, classList_add,
    classList_remove, setTimeout, console_error.
  unfold_js. cbn.
  destruct (upload_api net _) as [|ok [result|]]; cbn.
  - match goal with |- context [showUploadResult ?b ?m ?q] =>
      destruct (showUploadResult_run b m q) as (p' & -> & Hs & _) end.
    cbn. unfold same_map in *; cbn in *. tauto.
  - destruct ok; cbn;
      match goal with |- context [showUploadResult ?b ?m ?q] =>
        destruct (showUploadResult_run b m q) as (p' & -> & Hs & _) end;
      cbn; unfold same_map in *; cbn in *; tauto.
  - match goal with |- context [showUploadResult ?b ?m ?q] =>
      destruct (showUploadResult_run b m q) as (p' & -> & Hs & _) end.
    cbn. unfold same_map in *; cbn in *. tauto.
Qed.

Lemma run_callbacks_same_map (due : list (nat * Callback)) (p : Page) :
  same_map p (foldl (λ p t, exec (run_callback t.2) p) p due).
Proof.
  revert p. induction due as [|[ms []] due IH]; intros p; [by unfold same_map|].
  cbn [foldl]. destruct (IH (exec (run_callback LocationReload) p)) as (?&?&?&?&?).
  unfold same_map. cbn in *. tauto.
Qed.

Lemma elapse_same_map (ms : nat) (p : Page) : same_map p (elapse ms p).
Proof.
  unfold elapse.
  match goal with |- same_map _ (foldl _ ?q ?due) =>
    destruct (run_callbacks_same_map due q) as (?&?&?&?&?) end.
  unfold same_map. cbn in *. tauto.
Qed.

Lemma dispatch_marker_inv (e : Event) (p : Page) :
  marker_inv p → marker_inv (exec (dispatch net e) p).
Proof.
  intros Hinv. destruct e as [c|id checked|form|ms]; cbn [dispatch].
  - by apply onMapClick_marker_inv.
  - destruct (setupLayerToggles_markers id checked p) as [Hm Hc].
    unfold marker_inv. by rewrite Hm, Hc.
  - by eapply same_map_marker_inv; [apply handleFileUpload_same_map|].
  - by eapply same_map_marker_inv; [apply elapse_same_map|].
Qed.

Lemma run_marker_inv (es : list Event) (p : Page) :
  marker_inv p → marker_inv (run net es p).
Proof.
  revert p. induction es as [|e es IH]; intros p Hinv; [done|].
  apply IH. by apply dispatch_marker_inv.
Qed.

Lemma run_snoc (es : list Event) (e : Event) (p : Page) :
  run net (es ++ [e]) p = exec (dispatch net e) (run net es p).
Proof. unfold run. by rewrite foldl_app. Qed.

(** C4: on a page where at most the current marker is on the map (as on a
    freshly loaded page), after any run of events at most one selection
    marker is on the map, and a click then leaves exactly one marker on the
    map: a new one, at the clicked coordinate. *)
Theorem one_selection_marker (es : list Event) (p : Page) :
  marker_inv p →
  (length (map_markers (run net es p)) ≤ 1)%nat ∧
  ∀ c, ∃ m,
    map_markers (run net (es ++ [MapClick c]) p) = [m] ∧
    marker_latlng m = c ∧
    marker_stamp m = S (last_stamp (run net es p)) ∧
    currentMarker (run net (es ++ [MapClick c]) p) = Some m.
Proof.
  intros Hinv. pose proof (run_marker_inv es p Hinv) as Hes. split.
  - rewrite Hes. destruct (currentMarker _); cbn; lia.
  - intros c. rewrite run_snoc. cbn [dispatch].
    destruct (onMapClick_marker_inv c _ Hes) as [Hm _].
    destruct (onMapClick_run c (run net es p)) as (_ & Hcur & _).
    eexists. by rewrite Hm, Hcur.
Qed.

(** C8: when [currentMarker] is still [undefined] and no marker is on the
    map, a click returns normally and leaves exactly one marker on the map,
    at the clicked coordinate; the removal is skipped, and it is the guard
    that makes this so, since removing the absent marker would throw. *)
Theorem first_click_places_one_marker (c : Q * Q) (p : Page) :
  currentMarker p = None →
  map_markers p = [] →
  returns (onMapClick c) p ∧
  (∃ m, map_markers (exec (onMapClick c) p) = [m] ∧
        marker_latlng m = c ∧
        currentMarker (exec (onMapClick c) p) = Some m) ∧
  ¬ returns (map_removeMarker (currentMarker p)) p.
Proof.
  intros Hcur Hmap. destruct (onMapClick_run c p) as (Hret & Hcur' & Hmap').
  rewrite Hcur, Hmap in Hmap'. split; [done|]. split.
  - eexists. by rewrite Hmap', Hcur'.
  - rewrite Hcur. intros [[] Hr]. discriminate Hr.
Qed.

(** ** The layer toggles *)

(** C7: the change listener of the toggle of layer [l] returns normally and
    sets whether [l] is on the map to the state of the checkbox.  It leaves
    the children of all three layer groups, the visibility of the other two
    layers, the markers and the log of requests as they were.  Unchecking
    hides all the shapes of [l]; checking again shows the same shapes, with
    no request made; and when [l] has no shapes (its dataset failed to
    load) the shapes visible on the map do not change. *)
Theorem toggle_changes_only_visibility (l : LayerVar) (checked : bool) (p : Page) :
  let toggle := setupLayerToggles (toggle_of l) in
  let p' := exec (toggle checked) p in
  returns (toggle checked) p ∧
  on_map (group l p') = checked ∧
  visible l p' = (if checked then layers (group l p) else []) ∧
  (∀ l', layers (group l' p') = layers (group l' p)) ∧
  (∀ l', l' ≠ l → on_map (group l' p') = on_map (group l' p) ∧
                  visible l' p' = visible l' p) ∧
  requests p' = requests p ∧
  map_markers p' = map_markers p ∧
  visible l (exec (toggle true) (exec (toggle false) p)) = layers (group l p) ∧
  requests (exec (toggle true) (exec (toggle false) p)) = requests p ∧
  (layers (group l p) = [] → visible_shapes p' = visible_shapes p).
Proof.
  cbn zeta. unfold returns, exec, visible_shapes, visible.
  split; [destruct l, checked; by eexists|].
  split; [by destruct l, checked|].
  split; [by destruct l, checked|].
  split; [intros l'; by destruct l, checked, l'|].
  split; [intros l' Hne; by destruct l, checked, l'|].
  split; [by destruct l, checked|].
  split; [by destruct l, checked|].
  split; [by destruct l|].
  split; [by destruct l|].
  intros Hempty.
  destruct l, checked; cbn in *; rewrite Hempty;
    by repeat match goal with |- context [on_map ?g] => destruct (on_map g) end.
Qed.

(** ** The upload dialog *)

Lemma handleFileUpload_rejected (form : UploadForm) (p : Page) :
  files form !! 0%nat = None ∨ datasetType_value form = "" →
  ∃ msg, handleFileUpload net form p = alert msg p.
Proof.
  intros Hmissing. unfold handleFileUpload.
  destruct (files form !! 0%nat) as [file|]; [|by eexists].
  destruct Hmissing as [ ? | -> ]; [done|]. by eexists.
Qed.

Lemma not_elem_of_removed (x : string * string) (X : gset (string * string)) :
  x ∉ X ∖ {[ x ]}.
Proof. intros [_ Hn]%elem_of_difference. by apply Hn, elem_of_singleton. Qed.

Lemma truthy_nonempty (s : string) : s ≠ "" → truthy (VStr s) = true.
Proof. intros Hs. cbn. by destruct s. Qed.

(** A submission that passes validation: one request goes out and its
    response is reported in the result panel as [upload_report] says. *)
Lemma handleFileUpload_submitted (form : UploadForm) (file : File) (p : Page) :
  files form !! 0%nat = Some file →
  datasetType_value form ≠ "" →
  let formData := {| shapefile := file; dataset_type := datasetType_value form |} in
  let p' := exec (handleFileUpload net form) p in
  ∀ success message new_timers new_console,
    upload_report (upload_api net formData)
      = (success, message, new_timers, new_console) →
    returns (handleFileUpload net form) p ∧
    result_shown p' success message ∧
    timers p' = timers p ++ new_timers ∧
    console p' = console p ++ new_console ∧
    reloaded p' = reloaded p ∧
    alerts p' = alerts p ∧
    requests p' = requests p ++ [POST "/api/upload-shapefile/" formData].
Proof.
  intros Hfile Htype. cbn zeta. intros success message new_timers new_console.
  unfold returns, exec, handleFileUpload, result_shown. rewrite Hfile.
  rewrite (truthy_nonempty _ Htype). cbn [negb].
  unfold showUploadProgress, fetch_POST, send, settle, json, classList_add,
    classList_remove, setTimeout, console_error.
  unfold_js. cbn.
  destruct (upload_api net _) as [|ok [result|]];
    [|destruct ok|destruct ok];
    cbn [upload_report]; intros Hreport; simplify_eq; cbn;
    match goal with |- context [showUploadResult ?b ?m ?q] =>
      destruct (showUploadResult_run b m q)
        as (p' & -> & Hs & Ha & Hq & Ht & Hr & Hc & Hcl & Hh) end;
    cbn in *; rewrite ?Ha, ?Hq, ?Ht, ?Hr, ?Hc, ?Hcl, ?Hh, ?app_nil_r;
    (split; [by eexists|]);
    (split; [split; [apply not_elem_of_removed | apply lookup_insert_eq]|]);
    done.
Qed.

Lemma reloaded_callbacks (due : list (nat * Callback)) (p : Page) :
  reloaded (foldl (λ p t, exec (run_callback t.2) p) p due) =
  reloaded p || bool_decide (due ≠ []).
Proof.
  revert p. induction due as [|[ms []] due IH]; intros p.
  - rewrite bool_decide_eq_false_2 by auto. by rewrite orb_false_r.
  - cbn [foldl]. rewrite IH. cbn. by rewrite orb_true_r.
Qed.

(** A reload has happened once a timer was due. *)
Lemma reloaded_elapse (ms : nat) (p : Page) :
  reloaded (elapse ms p) =
  reloaded p || bool_decide (filter (λ t, t.1 ≤ ms)%nat (timers p) ≠ []).
Proof. unfold elapse. by rewrite reloaded_callbacks. Qed.

Lemma reloaded_elapse_new_timer (ms delay : nat) (p p' : Page) :
  timers p' = timers p ++ [(delay, LocationReload)] →
  reloaded p' = reloaded p →
  reloaded (elapse ms p') = reloaded (elapse ms p) || bool_decide (delay ≤ ms)%nat.
Proof.
  intros Ht Hr. rewrite !reloaded_elapse, Ht, Hr, filter_app.
  rewrite filter_cons, filter_nil. cbn [fst].
  destruct (decide (delay ≤ ms)%nat) as [Hle|Hgt].
  - rewrite (bool_decide_eq_true_2 (delay ≤ ms)%nat) by done.
    rewrite (bool_decide_eq_true_2 (_ ++ _ ≠ [])); [by rewrite !orb_true_r|].
    by destruct (filter _ (timers p)).
  - rewrite (bool_decide_eq_false_2 (delay ≤ ms)%nat) by done.
    by rewrite app_nil_r, !orb_false_r.
Qed.

(** C5: a submission that passes validation, by the response it gets.
    OK with a body carrying [records_created: n]: the result panel is
    revealed with the success message, which contains [n]; one timer is set,
    and the page reloads exactly when 2000 ms have passed, not before.
    Not OK with a body carrying [error: m], a string: the result panel is
    revealed with a message that contains [m]; no timer is set and the page
    is not reloaded. *)
Theorem upload_response_is_reported (form : UploadForm) (file : File) (p : Page) :
  files form !! 0%nat = Some file →
  datasetType_value form ≠ "" →
  let formData := {| shapefile := file; dataset_type := datasetType_value form |} in
  let p' := exec (handleFileUpload net form) p in
  (∀ result n,
     upload_api net formData = Responded true (Some result) →
     result !! "records_created" = Some n →
     ∃ message,
       result_shown p' true (VStr message) ∧
       contains message (ToString n) ∧
       contains (result_html true (VStr message)) (ToString n) ∧
       timers p' = timers p ++ [(2000%nat, LocationReload)] ∧
       reloaded p' = reloaded p ∧
       ∀ ms, reloaded (elapse ms p') =
             reloaded (elapse ms p) || bool_decide (2000 ≤ ms)%nat) ∧
  (∀ result m,
     upload_api net formData = Responded false (Some result) →
     result !! "error" = Some (VStr m) →
     ∃ message,
       result_shown p' false message ∧
       contains (ToString message) m ∧
       contains (result_html false message) m ∧
       timers p' = timers p ∧
       reloaded p' = reloaded p ∧
       ∀ ms, reloaded (elapse ms p') = reloaded (elapse ms p)).
Proof.
  intros Hfile Htype. cbn zeta. split.
  - intros result n Hresp Hn.
    destruct (handleFileUpload_submitted form file p Hfile Htype _ _ _ _
                (f_equal upload_report Hresp)) as (_ & Hshown & Ht & _ & Hr & _).
    eexists. split; [exact Hshown|].
    rewrite (Get_own _ _ _ Hn).
    split; [find_in_template|]. split; [unfold result_html; cbn [ToString]; find_in_template|].
    split; [done|]. split; [done|].
    intros ms. by apply reloaded_elapse_new_timer.
  - intros result m Hresp Hm.
    destruct (handleFileUpload_submitted form file p Hfile Htype _ _ _ _
                (f_equal upload_report Hresp)) as (_ & Hshown & Ht & _ & Hr & _).
    rewrite app_nil_r in Ht.
    eexists. split; [exact Hshown|].
    rewrite (Get_own _ _ _ Hm).
    assert (contains (ToString (or_else (VStr m) (VStr "Upload failed"))) m) as Hc.
    { unfold or_else. destruct m as [|x m]; cbn; [by exists "", "Upload failed"|].
      apply contains_refl. }
    split; [done|].
    split; [unfold result_html; do 9 apply contains_app_l; by apply contains_app_r|].
    split; [done|]. split; [done|].
    intros ms. by rewrite !reloaded_elapse, Ht, Hr.
Qed.

(** C6: when the file or the dataset type is missing, the handler returns
    after one alert and makes no request (and shows nothing else); a request
    is made only when both are present, and then exactly one is made, with
    both in its body, and no alert is shown. *)
Theorem upload_validation (form : UploadForm) (p : Page) :
  let p' := exec (handleFileUpload net form) p in
  (files form !! 0%nat = None ∨ datasetType_value form = "" →
     returns (handleFileUpload net form) p ∧
     (∃ msg, alerts p' = alerts p ++ [msg]) ∧
     requests p' = requests p ∧
     classList p' = classList p ∧ innerHTML p' = innerHTML p) ∧
  (requests p' ≠ requests p →
     is_Some (files form !! 0%nat) ∧ datasetType_value form ≠ "") ∧
  (∀ file, files form !! 0%nat = Some file → datasetType_value form ≠ "" →
     requests p' =
       requests p ++ [POST "/api/upload-shapefile/"
                        {| shapefile := file;
                           dataset_type := datasetType_value form |}] ∧
     alerts p' = alerts p).
Proof.
  cbn zeta.
  assert (files form !! 0%nat = None ∨ datasetType_value form = "" →
          returns (handleFileUpload net form) p ∧
          (∃ msg, alerts (exec (handleFileUpload net form) p) = alerts p ++ [msg]) ∧
          requests (exec (handleFileUpload net form) p) = requests p ∧
          classList (exec (handleFileUpload net form) p) = classList p ∧
          innerHTML (exec (handleFileUpload net form) p) = innerHTML p) as Hrej.
  { intros Hmissing.
    destruct (handleFileUpload_rejected form p Hmissing) as [msg Hrun].
    unfold returns, exec. rewrite Hrun. cbn. eauto 10. }
  split; [exact Hrej|]. split.
  - intros Hreq.
    destruct (files form !! 0%nat) as [file|] eqn:Hfile.
    + split; [by eexists|]. intros Htype.
      by destruct (Hrej (or_intror Htype)) as (_ & _ & ? & _).
    + by destruct (Hrej (or_introl eq_refl)) as (_ & _ & ? & _).
  - intros file Hfile Htype.
    destruct (upload_report (upload_api net
                {| shapefile := file; dataset_type := datasetType_value form |}))
      as [[[success message] new_timers] new_console] eqn:Hrep.
    by destruct (handleFileUpload_submitted form file p Hfile Htype _ _ _ _ Hrep)
      as (_ & _ & _ & _ & _ & ? & ?).
Qed.

(** C9: when the response to a submission is not OK and its JSON body has
    no [error] field, or has the empty string there, the result panel shows
    the failure message [Upload failed]. *)
Theorem upload_failure_fallback (form : UploadForm) (file : File)
    (result : gmap string value) (p : Page) :
  files form !! 0%nat = Some file →
  datasetType_value form ≠ "" →
  upload_api net {| shapefile := file; dataset_type := datasetType_value form |}
    = Responded false (Some result) →
  result !! "error" = None ∨ result !! "error" = Some (VStr "") →
  let p' := exec (handleFileUpload net form) p in
  result_shown p' false (VStr "Upload failed") ∧
  contains (result_html false (VStr "Upload failed")) "Upload failed" ∧
  timers p' = timers p.
Proof.
  intros Hfile Htype Hresp Herror. cbn zeta.
  destruct (handleFileUpload_submitted form file p Hfile Htype _ _ _ _
              (f_equal upload_report Hresp)) as (_ & Hshown & Ht & _).
  rewrite app_nil_r in Ht.
  assert (or_else (Get result "error") (VStr "Upload failed") = VStr "Upload failed")
    as Hmsg.
  { destruct Herror as [Hnone|Hempty].
    - rewrite (Get_absent _ _ Hnone); [done|]. by apply (bool_decide_unpack _).
    - by rewrite (Get_own _ _ _ Hempty). }
  rewrite Hmsg in Hshown. split; [done|]. split; [|done].
  unfold result_html. cbn [ToString]. find_in_template.
Qed.

(** The markup of the result panel carries the message it is given. *)
Lemma result_html_contains (success : bool) (message : value) :
  contains (result_html success message) (ToString message).
Proof. unfold result_html. do 9 apply contains_app_l. apply contains_here. Qed.

(** C10: when the body of the response to a submission does not parse as
    JSON, whatever the status, the result panel is revealed with the
    failure markup, which contains the text [Network error occurred]; the
    parse error is logged, and no timer is set, so the page is not
    reloaded. *)
Theorem upload_unparsable_body (form : UploadForm) (file : File) (ok : bool)
    (p : Page) :
  files form !! 0%nat = Some file →
  datasetType_value form ≠ "" →
  upload_api net {| shapefile := file; dataset_type := datasetType_value form |}
    = Responded ok None →
  let p' := exec (handleFileUpload net form) p in
  returns (handleFileUpload net form) p ∧
  result_shown p' false (VStr "Network error occurred") ∧
  contains (result_html false (VStr "Network error occurred"))
    "Network error occurred" ∧
  contains (result_html false (VStr "Network error occurred"))
    ("<div class=" +:+ dq +:+ "error" +:+ dq +:+ ">") ∧
  console p' =
    console p ++ [("Upload error:", SyntaxError "Unexpected token in JSON")] ∧
  timers p' = timers p ∧
  reloaded p' = reloaded p ∧
  ∀ ms, reloaded (elapse ms p') = reloaded (elapse ms p).
Proof.
  intros Hfile Htype Hresp. cbn zeta.
  assert (upload_report (upload_api net
            {| shapefile := file; dataset_type := datasetType_value form |})
          = (false, VStr "Network error occurred", [],
             [("Upload error:", SyntaxError "Unexpected token in JSON")])) as Hrep.
  { rewrite Hresp. by destruct ok. }
  destruct (handleFileUpload_submitted form file p Hfile Htype _ _ _ _ Hrep)
    as (Hret & Hshown & Ht & Hc & Hr & _).
  rewrite app_nil_r in Ht.
  split; [done|]. split; [done|].
  split; [apply (result_html_contains false (VStr "Network error occurred"))|].
  split.
  { exists (nl +:+ spaces 8),
      (nl +:+ spaces 12 +:+ "Network error occurred" +:+
       nl +:+ spaces 8 +:+ "</div>" +:+ nl +:+ spaces 4).
    reflexivity. }
  split; [done|]. split; [done|]. split; [done|].
  intros ms. by rewrite !reloaded_elapse, Ht, Hr.
Qed.

End Properties.

(** * More properties of the script *)

(** ** Strings, continued *)

Lemma prefix_sound (t s : string) :
  String.prefix t s = true → ∃ post, s = t +:+ post.
Proof.
  revert s. induction t as [|x t IH]; intros s Hp.
  - by exists s.
  - destruct s as [|y s]; [discriminate Hp|]. cbn in Hp.
    destruct (ascii_dec x y) as [->|]; [|discriminate Hp].
    destruct (IH s Hp) as [post ->]. by exists post.
Qed.

(** The test [includes] only finds what is there. *)
Lemma includes_sound (s t : string) : includes s t = true → contains s t.
Proof.
  induction s as [|x s IH]; cbn [includes].
  - destruct (String.prefix t "") eqn:Hp; [|discriminate].
    intros _. destruct (prefix_sound _ _ Hp) as [post Hpost].
    by exists "", post.
  - destruct (String.prefix t (String x s)) eqn:Hp.
    + intros _. destruct (prefix_sound _ _ Hp) as [post Hpost].
      by exists "", post.
    + intros Hin. destruct (IH Hin) as (pre & post & ->).
      by exists (String x pre), post.
Qed.

Lemma white_space_only_app (a b : string) :
  white_space_only (a +:+ b) = white_space_only a && white_space_only b.
Proof.
  induction a as [|x a IH]; [reflexivity|].
  change (is_white_space x && white_space_only (a +:+ b)
          = is_white_space x && white_space_only a && white_space_only b).
  by rewrite IH, andb_assoc.
Qed.

(** [trimStart] drops a prefix of white space and stops at the first
    character that is not. *)
Lemma trimStart_spec (s : string) :
  (∃ pre, s = pre +:+ trimStart s ∧ white_space_only pre = true) ∧
  (∀ c, first_char (trimStart s) = Some c → is_white_space c = false).
Proof.
  induction s as [|x s [(pre & Hpre & Hws) Hfirst]]; cbn [trimStart].
  - split; [by exists ""|]. intros c [=].
  - destruct (is_white_space x) eqn:Hx.
    + split; [|exact Hfirst]. exists (String x pre). split.
      * change (String x s = String x (pre +:+ trimStart s)). by rewrite <- Hpre.
      * cbn. by rewrite Hx, Hws.
    + split; [by exists ""|]. intros c [= <-]. exact Hx.
Qed.

(** [trimEnd] drops a suffix of white space and stops at the last character
    that is not; it keeps the first character of what it keeps. *)
Lemma trimEnd_spec (s : string) :
  (∃ post, s = trimEnd s +:+ post ∧ white_space_only post = true) ∧
  (∀ c, last_char (trimEnd s) = Some c → is_white_space c = false) ∧
  (trimEnd s ≠ "" → first_char (trimEnd s) = first_char s) ∧
  (trimEnd s = "" → white_space_only s = true).
Proof.
  induction s as [|x s ((post & Hpost & Hws) & Hlast & Hfirst & Hempty)];
    cbn [trimEnd].
  - split; [by exists ""|]. split; [intros c [=]|]. by split.
  - destruct (trimEnd s) as [|y kept] eqn:Hkept.
    + destruct (is_white_space x) eqn:Hx.
      * split.
        { exists (String x post). split.
          - change (String x s = String x post). by rewrite Hpost.
          - cbn. by rewrite Hx, Hws. }
        split; [intros c [=]|]. split; [done|].
        intros _. cbn. by rewrite Hx, Hempty.
      * split.
        { exists post. split; [|done].
          change (String x s = String x ("" +:+ post)). by rewrite <- Hpost. }
        split; [by intros c [= <-]|]. by split.
    + split.
      { exists post. split; [|done].
        change (String x s = String x (String y kept +:+ post)). by rewrite <- Hpost. }
      split; [exact Hlast|]. by split.
Qed.

(** [trim] keeps the part of the string between its leading and its
    trailing white space. *)
Lemma trim_spec (s : string) :
  (∃ pre post, s = pre +:+ trim s +:+ post ∧
               white_space_only pre = true ∧ white_space_only post = true) ∧
  (∀ c, first_char (trim s) = Some c → is_white_space c = false) ∧
  (∀ c, last_char (trim s) = Some c → is_white_space c = false) ∧
  (trim s = "" ↔ white_space_only s = true).
Proof.
  unfold trim.
  destruct (trimStart_spec s) as [(pre & Hpre & Hwpre) Hfirst].
  remember (trimStart s) as t eqn:Ht. clear Ht.
  destruct (trimEnd_spec t) as ((post & Hpost & Hwpost) & Hlast & Hkeep & Hempty).
  split; [|split; [|split; [exact Hlast|]]].
  - exists pre, post. split; [|done]. by rewrite <- Hpost.
  - intros c Hc. apply Hfirst. rewrite <- Hkeep; [done|].
    intros Hnil. rewrite Hnil in Hc. discriminate Hc.
  - split.
    + intros Hnil. rewrite Hpre, white_space_only_app, Hwpre. by apply Hempty.
    + intros Hws. rewrite Hpre, white_space_only_app, Hwpre in Hws.
      assert (white_space_only (trimEnd t +:+ post) = true) as Hkept
        by (by rewrite <- Hpost).
      rewrite white_space_only_app in Hkept.
      apply andb_prop in Hkept as [Hkept _].
      destruct (trimEnd t) as [|y kept] eqn:Hk; [done|].
      assert (is_white_space y = false) as Hy.
      { apply Hfirst. rewrite <- Hkeep; [done|discriminate]. }
      cbn [white_space_only] in Hkept. by rewrite Hy in Hkept.
Qed.

(** ** Class lists *)

Lemma elem_of_added (x : string * string) (X : gset (string * string)) :
  x ∈ {[ x ]} ∪ X.
Proof. apply elem_of_union_l. by apply elem_of_singleton. Qed.

Lemma elem_of_added_other (x y : string * string) (X : gset (string * string)) :
  x ∈ X → x ∈ {[ y ]} ∪ X.
Proof. apply elem_of_union_r. Qed.

Lemma elem_of_removed_other (x y : string * string) (X : gset (string * string)) :
  x ∈ X → x ≠ y → x ∈ X ∖ {[ y ]}.
Proof.
  intros Hx Hne. apply elem_of_difference. split; [done|].
  by intros ->%elem_of_singleton.
Qed.

Lemma not_elem_of_added_other (x y : string * string) (X : gset (string * string)) :
  x ∉ X → x ≠ y → x ∉ {[ y ]} ∪ X.
Proof.
  intros Hx Hne [->%elem_of_singleton|Hin]%elem_of_union; [by apply Hne | by apply Hx].
Qed.

Section MoreProperties.
Context `{Host} (net : Network).

Ltac unfold_script :=
  unfold mbind, js_bind, mret, js_ret, modify, gets, throw, lift, try_catch.

(** ** The search box *)

Lemma performSearch_frame (value : string) (p : Page) :
  returns (performSearch value) p ∧
  same_but_alerts p (exec (performSearch value) p) ∧
  ∃ msg, alerts (exec (performSearch value) p) = alerts p ++ [msg].
Proof.
  unfold returns, exec, performSearch, same_but_alerts, same_map.
  destruct (negb _); cbn; (split; [by eexists|]); (split; [tauto|]); by eexists.
Qed.

(** X1: a search returns normally and shows exactly one alert; it sends no
    request and changes nothing else on the page.  When the input holds
    nothing but white space the alert asks for a location; otherwise it
    quotes the trimmed term, which is the input without its leading and
    trailing white space and is not empty. *)
Theorem performSearch_alerts_only (value : string) (p : Page) :
  let p' := exec (performSearch value) p in
  returns (performSearch value) p ∧
  same_but_alerts p p' ∧
  (white_space_only value = true →
     alerts p' = alerts p ++ ["Please enter a location to search"]) ∧
  (white_space_only value = false →
     alerts p' =
       alerts p ++ ["Search functionality is basic in this demo. Searched for: "
                      +:+ dq +:+ trim value +:+ dq] ∧
     trim value ≠ "" ∧
     (∃ pre post, value = pre +:+ trim value +:+ post ∧
                  white_space_only pre = true ∧ white_space_only post = true) ∧
     (∀ c, first_char (trim value) = Some c → is_white_space c = false) ∧
     (∀ c, last_char (trim value) = Some c → is_white_space c = false)).
Proof.
  cbn zeta. destruct (trim_spec value) as (Hparts & Hfirst & Hlast & Hempty).
  unfold returns, exec, performSearch, same_but_alerts, same_map.
  destruct (trim value) as [|x term] eqn:Hterm; cbn.
  - split; [by eexists|]. split; [tauto|]. split; [done|].
    intros Hws. rewrite (proj1 Hempty eq_refl) in Hws. discriminate Hws.
  - split; [by eexists|]. split; [tauto|]. split.
    + intros Hws. by apply Hempty in Hws.
    + intros _. split; [done|]. split; [done|]. by split.
Qed.

(** X2: the search button and the Enter key in the search input do the
    same; any other key leaves the page as it is; and whatever the event,
    a search adds at most one alert and changes nothing else. *)
Theorem setupSearch_events (value : string) (p : Page) :
  setupSearch (SearchKeypress "Enter") value p = setupSearch SearchClick value p ∧
  (∀ key, key ≠ "Enter" → setupSearch (SearchKeypress key) value p = (Normal tt, p)) ∧
  (∀ e, returns (setupSearch e value) p ∧
        same_but_alerts p (exec (setupSearch e value) p) ∧
        ∃ shown, alerts (exec (setupSearch e value) p) = alerts p ++ shown ∧
                 (length shown ≤ 1)%nat).
Proof.
  split; [reflexivity|]. split.
  - intros key Hkey. cbn. by rewrite (proj2 (String.eqb_neq _ _) Hkey).
  - assert (returns (performSearch value) p ∧
            same_but_alerts p (exec (performSearch value) p) ∧
            ∃ shown, alerts (exec (performSearch value) p) = alerts p ++ shown ∧
                     (length shown ≤ 1)%nat) as Hsearch.
    { destruct (performSearch_frame value p) as (Hret & Hsame & msg & Hmsg).
      split; [done|]. split; [done|]. exists [msg]. by split. }
    assert (returns (mret tt : js unit) p ∧
            same_but_alerts p (exec (mret tt : js unit) p) ∧
            ∃ shown, alerts (exec (mret tt : js unit) p) = alerts p ++ shown ∧
                     (length shown ≤ 1)%nat) as Hnothing.
    { split; [by eexists|]. split; [by unfold same_but_alerts, same_map|].
      exists []. split; [by rewrite app_nil_r | cbn; lia]. }
    intros [|key]; cbn [setupSearch]; [exact Hsearch|].
    by destruct (String.eqb key "Enter").
Qed.

(** ** The loader and [initMap], continued *)

Ltac loader_runs net :=
  unfold exec; rewrite loadHazardData_stanzas;
  unfold try_catch, mbind, js_bind;
  rewrite load_stanza_run;
  destruct (hazard_api net (url_of FloodLayer)) as [|[|] [flood|]] eqn:E1;
  try destruct (renders_body flood) eqn:R1;
  rewrite ?load_stanza_run;
  destruct (hazard_api net (url_of LandslideLayer)) as [|[|] [landslide|]] eqn:E2;
  try destruct (renders_body landslide) eqn:R2;
  rewrite ?load_stanza_run;
  destruct (hazard_api net (url_of LiquefactionLayer))
    as [|[|] [liquefaction|]] eqn:E3;
  try destruct (renders_body liquefaction) eqn:R3.




Lemma loadHazardData_sent (p : Page) :
  requests (exec (loadHazardData net) p) = requests p ++ sent_requests net.
Proof.
  unfold sent_requests, reached. cbn [List.filter earlier forallb].
  loader_runs net; rewrite ?E1, ?E2, ?E3; cbn [completes andb snd fmap list_fmap];
    rewrite ?R1, ?R2, ?R3;
    cbn; rewrite <- ?app_assoc; reflexivity.
Qed.




(** X5: the loader sends the request of a dataset exactly when every
    stanza before it went through (its response was not OK, or was OK with
    a body that parsed and rendered), and sends them in the order of the
    script: after a stanza that throws, none of the later requests goes
    out. *)
Theorem loadHazardData_sends (p : Page) :
  requests (exec (loadHazardData net) p) = requests p ++ sent_requests net ∧
  (∀ l, GET (url_of l) ∈ sent_requests net ↔ reached net l = true).
Proof.
  split; [apply loadHazardData_sent|].
  intros l. unfold sent_requests.
  rewrite list_elem_of_fmap. split.
  - intros (l' & Hurl & Hin). apply list_elem_of_In, filter_In in Hin as [_ Hr].
    by destruct l, l'.
  - intros Hr. exists l. split; [done|].
    apply list_elem_of_In, filter_In. split; [|done].
    destruct l; cbn; tauto.
Qed.

(** ** The renderer and the toggles, continued *)

Lemma features_rendered (l' l : LayerVar) (data : GeoJSON)
    (hazardType : string) (p : Page) :
  features_of l' (rendered data l hazardType p) =
  features_of l' p ++ (if decide (l' = l) then drawn_of data else []).
Proof.
  unfold features_of. rewrite layers_rendered, fmap_app. f_equal.
  case_decide; [apply features_geoJSON_paths | done].
Qed.


(** X7: features rendered into a layer group that is off the map (its
    toggle is unchecked) do not show; checking the toggle then shows what
    was drawn of them together with the earlier ones. *)
Theorem rendering_into_unchecked_layer (data : GeoJSON) (l : LayerVar)
    (hazardType : string) (p : Page) :
  on_map (group l p) = false →
  let p' := exec (addGeoJSONLayer data l hazardType) p in
  visible l p' = [] ∧
  features_of l p' = features_of l p ++ drawn_of data ∧
  path_feature <$> visible l (exec (setupLayerToggles (toggle_of l) true) p')
    = features_of l p ++ drawn_of data.
Proof.
  intros Hoff. cbn zeta. unfold exec. rewrite addGeoJSONLayer_run. cbn [snd].
  pose proof (features_rendered l l data hazardType p) as Hf.
  rewrite decide_True in Hf by done.
  split; [|split; [exact Hf|]].
  - unfold visible. destruct l; cbn in *; by rewrite Hoff.
  - rewrite <- Hf. unfold visible, features_of. by destruct l.
Qed.


(** ** Popups of incomplete features *)

(** X19: for a feature whose properties are an object of scalars, building
    the popup never throws and changes nothing on the page.  A property
    that is missing is printed as [undefined]: without [original_code] the
    popup reads [Original Code: undefined], without [susceptibility] it
    reads [Level: undefined] (and the shape gets the fallback colour), and
    without [shape_area] it has no area line after the code.  For a feature
    with a geometry whose properties are null the renderer throws a
    [TypeError] and adds no shape; a feature without geometry is passed
    over, whatever its properties. *)
Theorem popup_of_incomplete_feature (hazardType : string) (feature : Feature)
    (l : LayerVar) (p : Page) :
  (∃ popup,
     popupContent hazardType feature p = (Normal popup, p) ∧
     (properties feature !! "original_code" = None →
        contains popup "Original Code: undefined") ∧
     (properties feature !! "susceptibility" = None →
        contains popup "Level: undefined<br>" ∧
        fillColor (style_option feature) = VStr "#95a5a6") ∧
     (properties feature !! "shape_area" = None →
        popup = popup_head hazardType feature +:+ "" +:+ popup_tail)) ∧
  addGeoJSONLayer
    (FeatureCollection [ {| has_geometry := true; member_properties := None |} ])
    l hazardType p
  = (Throw (TypeError "Cannot read properties of null (reading 'susceptibility')"),
     p) ∧
  (∀ properties,
     addGeoJSONLayer
       (FeatureCollection
          [ {| has_geometry := false; member_properties := properties |} ])
       l hazardType p
     = (Normal tt, p)).
Proof.
  split; [|split].
  2: { rewrite addGeoJSONLayer_run. by rewrite rendered_nothing. }
  2: { intros properties. rewrite addGeoJSONLayer_run. by rewrite rendered_nothing. }
  eexists. split; [apply popupContent_run|].
  assert (∀ k, k ∈ ["original_code"; "susceptibility"; "shape_area"] →
            properties feature !! k = None →
            Get (properties feature) k = VUndefined) as Hget.
  { intros k Hk Hnone. apply Get_absent; [done|]. revert Hk.
    rewrite !elem_of_cons, elem_of_nil.
    intros [->|[->|[->|[]]]]; by apply (bool_decide_unpack _). }
  split; [|split].
  - intros Hnone. apply contains_app_r. unfold popup_head.
    rewrite (Hget "original_code") by (done || set_solver). cbn [ToString].
    do 12 apply contains_app_l. rewrite <- append_assoc. apply contains_here.
  - intros Hnone. split.
    + apply contains_app_r. unfold popup_head.
      rewrite (Hget "susceptibility") by (done || set_solver). cbn [ToString].
      do 7 apply contains_app_l. do 2 rewrite <- append_assoc. apply contains_here.
    + unfold style_option. cbn [fillColor].
      by rewrite (Hget "susceptibility") by (done || set_solver).
  - intros Hnone. unfold area_segment.
    by rewrite (Hget "shape_area") by (done || set_solver).
Qed.

(** ** The detail panel *)

(** X9: a click on the map reveals the sidebar and writes both coordinates,
    each printed with six decimals, into the location panel.  It sends no
    request, shows no alert, logs nothing, sets no timer and leaves the
    three layer groups as they were. *)
Theorem onMapClick_detail_panel (c : Q * Q) (p : Page) :
  let p' := exec (onMapClick c) p in
  (("sidebar", "hidden") ∉ classList p') ∧
  (∃ html, innerHTML p' !! "location-info" = Some html ∧
           contains html ("Latitude: " +:+ Number_toFixed 6 c.1) ∧
           contains html ("Longitude: " +:+ Number_toFixed 6 c.2)) ∧
  requests p' = requests p ∧ alerts p' = alerts p ∧ console p' = console p ∧
  timers p' = timers p ∧ reloaded p' = reloaded p ∧ style p' = style p ∧
  ∀ l, group l p' = group l p.
Proof.
  cbn zeta. destruct c as [lat lng].
  unfold exec, onMapClick, showLocationInfo, getHazardInfoForLocation,
    L_marker, marker_addTo_map, map_removeMarker, classList_remove,
    set_innerHTML, L_stamp.
  unfold_script.
  destruct (currentMarker p) as [m0|]; cbn -[String.concat];
    (split; [apply not_elem_of_removed|]);
    (split;
     [eexists; split;
      [rewrite lookup_insert_ne by done; rewrite lookup_insert_ne by done;
       apply lookup_insert_eq
      | split;
        [ do 5 apply contains_app_l; rewrite <- append_assoc; apply contains_here
        | do 10 apply contains_app_l; rewrite <- append_assoc; apply contains_here ]]|]);
    do 6 (split; [reflexivity|]); by intros [].
Qed.

(** X10: the hazard details a click leaves in the panel are the same for
    every coordinate and every page: a placeholder that names the three
    hazards as being analyzed and carries the note about colored areas.
    Neither the interim text nor the error text is left in the panel, and
    nothing is logged (the [catch] never runs). *)
Theorem hazard_details_is_a_placeholder :
  ∃ html,
    (∀ (c : Q * Q) (p : Page),
       innerHTML (exec (onMapClick c) p) !! "hazard-details" = Some html ∧
       console (exec (onMapClick c) p) = console p) ∧
    contains html "<strong>Flood Susceptibility:</strong>" ∧
    contains html "<strong>Landslide Susceptibility:</strong>" ∧
    contains html "<strong>Liquefaction Susceptibility:</strong>" ∧
    contains html "Note: Click on colored areas for detailed information" ∧
    ¬ contains html "Analyzing hazard levels" ∧
    ¬ contains html "Error retrieving hazard information".
Proof.
  eexists. split.
  - intros [lat lng] p.
    unfold exec, onMapClick, showLocationInfo, getHazardInfoForLocation,
      L_marker, marker_addTo_map, map_removeMarker, classList_remove,
      set_innerHTML, L_stamp.
    unfold_script.
    destruct (currentMarker p) as [m0|]; cbn -[String.concat];
      (split; [apply lookup_insert_eq | reflexivity]).
  - repeat split;
      first [ apply includes_sound; vm_compute; reflexivity
            | apply not_contains; vm_compute; reflexivity ].
Qed.

(** ** The upload dialog, continued *)



(** X12: when the fetch of a submission is rejected (the server cannot be
    reached), the one request has gone out, the result panel is revealed
    with markup that contains the text [Network error occurred], the
    rejection is logged once, and no reload is scheduled. *)
Theorem upload_fetch_rejected (form : UploadForm) (file : File) (p : Page) :
  files form !! 0%nat = Some file →
  datasetType_value form ≠ "" →
  upload_api net {| shapefile := file; dataset_type := datasetType_value form |}
    = Rejected →
  let p' := exec (handleFileUpload net form) p in
  returns (handleFileUpload net form) p ∧
  result_shown p' false (VStr "Network error occurred") ∧
  (∃ html, innerHTML p' !! "result-message" = Some html ∧
           contains html "Network error occurred") ∧
  console p' = console p ++ [("Upload error:", TypeError "Failed to fetch")] ∧
  requests p' =
    requests p ++ [POST "/api/upload-shapefile/"
                     {| shapefile := file; dataset_type := datasetType_value form |}] ∧
  timers p' = timers p ∧
  ∀ ms, reloaded (elapse ms p') = reloaded (elapse ms p).
Proof.
  intros Hfile Htype Hresp. cbn zeta.
  destruct (handleFileUpload_submitted net form file p Hfile Htype _ _ _ _
              (f_equal upload_report Hresp))
    as (Hret & Hshown & Ht & Hc & Hr & _ & Hq).
  rewrite app_nil_r in Ht. do 2 (split; [done|]).
  split.
  { eexists. split; [exact (proj2 Hshown)|].
    apply (result_html_contains false (VStr "Network error occurred")). }
  do 3 (split; [done|]).
  intros ms. by rewrite !reloaded_elapse, Ht, Hr.
Qed.

(** X13: for a response that is not OK whose body is an object with
    scalar fields, what the panel shows is decided by the truthiness of the
    [error] field: a truthy scalar (a non-empty string, a number other than
    zero, or [true]) is shown as it prints, and a falsy one (absent, [null],
    [false], zero or the empty string) is replaced by [Upload failed]. *)
Theorem upload_error_value (form : UploadForm) (file : File)
    (result : gmap string value) (p : Page) :
  files form !! 0%nat = Some file →
  datasetType_value form ≠ "" →
  upload_api net {| shapefile := file; dataset_type := datasetType_value form |}
    = Responded false (Some result) →
  let p' := exec (handleFileUpload net form) p in
  let error := Get result "error" in
  let shows (text : string) :=
    ∃ html, innerHTML p' !! "result-message" = Some html ∧ contains html text in
  (truthy error = true →
     result_shown p' false error ∧ shows (ToString error)) ∧
  (truthy error = false →
     result_shown p' false (VStr "Upload failed") ∧ shows "Upload failed") ∧
  (error ∈ [VUndefined; VNull; VBool false; VNum 0; VStr ""] →
     result_shown p' false (VStr "Upload failed") ∧ shows "Upload failed") ∧
  (∀ m, result !! "error" = Some (VStr m) → m ≠ "" → shows m) ∧
  (result !! "error" = Some (VBool true) → shows "true").
Proof.
  intros Hfile Htype Hresp. cbn zeta.
  destruct (handleFileUpload_submitted net form file p Hfile Htype _ _ _ _
              (f_equal upload_report Hresp)) as (_ & Hshown & _).
  unfold or_else in Hshown.
  assert (∀ message,
            result_shown (exec (handleFileUpload net form) p) false message →
            ∃ html, innerHTML (exec (handleFileUpload net form) p)
                      !! "result-message" = Some html ∧
                    contains html (ToString message)) as Hcontains.
  { intros message [_ Hhtml]. eexists. split; [exact Hhtml|].
    apply result_html_contains. }
  assert (truthy (Get result "error") = true →
          result_shown (exec (handleFileUpload net form) p) false
            (Get result "error")) as Htruthy.
  { intros Hv. by rewrite Hv in Hshown. }
  assert (truthy (Get result "error") = false →
          result_shown (exec (handleFileUpload net form) p) false
            (VStr "Upload failed")) as Hfalsy.
  { intros Hv. by rewrite Hv in Hshown. }
  split; [|split; [|split; [|split]]].
  - intros Hv. split; [by apply Htruthy|]. by apply Hcontains, Htruthy.
  - intros Hv. split; [by apply Hfalsy|].
    by apply (Hcontains (VStr "Upload failed")), Hfalsy.
  - intros Hin.
    assert (truthy (Get result "error") = false) as Hv.
    { revert Hin. rewrite !elem_of_cons, elem_of_nil.
      intros [->|[->|[->|[->|[->|[]]]]]]; reflexivity. }
    split; [by apply Hfalsy|].
    by apply (Hcontains (VStr "Upload failed")), Hfalsy.
  - intros m Hm Hne. apply (Hcontains (VStr m)).
    rewrite <- (Get_own _ _ _ Hm). apply Htruthy. rewrite (Get_own _ _ _ Hm).
    by destruct m.
  - intros Hm. apply (Hcontains (VBool true)).
    rewrite <- (Get_own _ _ _ Hm). apply Htruthy. by rewrite (Get_own _ _ _ Hm).
Qed.

(** X14: the status alone decides that an upload succeeded.  For an OK
    response whose body is an object with scalar fields, even one that
    carries an [error] field, the panel shows the success message and the
    reload is scheduled; the count in the message is whatever
    [records_created] holds, and when the body has no such field the
    message reads [Successfully processed undefined records]. *)
Theorem upload_ok_whatever_the_body (form : UploadForm) (file : File)
    (result : gmap string value) (p : Page) :
  files form !! 0%nat = Some file →
  datasetType_value form ≠ "" →
  upload_api net {| shapefile := file; dataset_type := datasetType_value form |}
    = Responded true (Some result) →
  let p' := exec (handleFileUpload net form) p in
  let shows (text : string) :=
    ∃ html, innerHTML p' !! "result-message" = Some html ∧ contains html text in
  result_shown p' true
    (VStr ("Successfully processed "
             +:+ ToString (Get result "records_created") +:+ " records")) ∧
  shows ("Successfully processed "
           +:+ ToString (Get result "records_created") +:+ " records") ∧
  shows ("<div class=" +:+ dq +:+ "success" +:+ dq +:+ ">") ∧
  timers p' = timers p ++ [(2000%nat, LocationReload)] ∧
  console p' = console p ∧
  (∀ ms, reloaded (elapse ms p') =
         reloaded (elapse ms p) || bool_decide (2000 ≤ ms)%nat) ∧
  (result !! "records_created" = None →
     result_shown p' true (VStr "Successfully processed undefined records") ∧
     shows "Successfully processed undefined records").
Proof.
  intros Hfile Htype Hresp. cbn zeta.
  destruct (handleFileUpload_submitted net form file p Hfile Htype _ _ _ _
              (f_equal upload_report Hresp)) as (_ & Hshown & Ht & Hc & Hr & _).
  rewrite app_nil_r in Hc.
  assert (∃ html, innerHTML (exec (handleFileUpload net form) p)
                    !! "result-message" = Some html ∧
                  contains html
                    ("Successfully processed "
                       +:+ ToString (Get result "records_created") +:+ " records"))
    as Hcontains.
  { eexists. split; [exact (proj2 Hshown)|].
    apply (result_html_contains true (VStr _)). }
  split; [done|]. split; [done|].
  split.
  { eexists. split; [exact (proj2 Hshown)|].
    exists (nl +:+ spaces 8). eexists.
    unfold result_html. rewrite !append_assoc. reflexivity. }
  split; [done|]. split; [done|].
  split; [intros ms; by apply reloaded_elapse_new_timer|].
  intros Hnone. rewrite (Get_absent _ _ Hnone) in Hshown, Hcontains; [done|..];
    by apply (bool_decide_unpack _).
Qed.


(** ** Closing the dialog *)

Lemma closed_dialog (d : Dialog) :
  let p := dialog_page d in
  let d' := setupUploadModal net "close-modal" d in
  setupUploadModal net "cancel-upload" d = d' ∧
  classList (dialog_page d') =
    {[ ("upload-result", "hidden") ]} ∪
      ({[ ("upload-progress", "hidden") ]} ∪
         ({[ ("upload-modal", "hidden") ]} ∪ classList p)
           ∖ {[ ("upload-form", "hidden") ]}) ∧
  dialog_form d' = {| files := []; datasetType_value := select_default d |} ∧
  select_default d' = select_default d ∧
  innerHTML (dialog_page d') = innerHTML p ∧ style (dialog_page d') = style p ∧
  timers (dialog_page d') = timers p ∧ reloaded (dialog_page d') = reloaded p ∧
  requests (dialog_page d') = requests p ∧ alerts (dialog_page d') = alerts p ∧
  console (dialog_page d') = console p ∧
  same_map p (dialog_page d').
Proof. cbn zeta. unfold same_map. cbn. tauto. Qed.

Lemma closed_dialog_panels (d : Dialog) :
  let p' := dialog_page (setupUploadModal net "close-modal" d) in
  (("upload-modal", "hidden") ∈ classList p') ∧ panels_idle p'.
Proof.
  cbn zeta. destruct (closed_dialog d) as (_ & -> & _). unfold panels_idle.
  split; [|split; [|split]].
  - do 2 apply elem_of_added_other. apply elem_of_removed_other; [|done].
    apply elem_of_added.
  - do 2 (apply not_elem_of_added_other; [|done]). apply not_elem_of_removed.
  - apply elem_of_added_other, elem_of_added.
  - apply elem_of_added.
Qed.

(** X16: the close button and the cancel button do the same.  From any
    state of the dialog they hide the modal, bring the three panels back to
    the idle state (form shown, progress and result hidden) and reset the
    form: no file is selected any more and the select is back at its default
    option.  They send nothing, cancel no timer, and leave the text and the
    style of the last result message in the document. *)
Theorem closing_resets_the_dialog (id : string) (d : Dialog) :
  id = "close-modal" ∨ id = "cancel-upload" →
  let p := dialog_page d in
  let d' := setupUploadModal net id d in
  (("upload-modal", "hidden") ∈ classList (dialog_page d')) ∧
  panels_idle (dialog_page d') ∧
  files (dialog_form d') = [] ∧
  datasetType_value (dialog_form d') = select_default d ∧
  innerHTML (dialog_page d') = innerHTML p ∧ style (dialog_page d') = style p ∧
  timers (dialog_page d') = timers p ∧ requests (dialog_page d') = requests p ∧
  alerts (dialog_page d') = alerts p ∧ same_map p (dialog_page d').
Proof.
  intros Hid. cbn zeta.
  assert (setupUploadModal net id d = setupUploadModal net "close-modal" d) as ->.
  { destruct Hid as [->| ->]; [done|]. by destruct (closed_dialog d) as [-> _]. }
  destruct (closed_dialog_panels d) as [Hmodal Hidle].
  destruct (closed_dialog d)
    as (_ & _ & Hform & _ & Hhtml & Hstyle & Ht & _ & Hq & Ha & _ & Hsame).
  rewrite Hform. done.
Qed.

(** X17: after the dialog was closed or cancelled, opening it again shows
    the idle form, and submitting it without choosing a file again is
    refused: one alert asks for a shapefile and no request is sent, whatever
    was selected before the dialog was closed. *)
Theorem reopened_dialog_needs_a_file (id : string) (d : Dialog) :
  id = "close-modal" ∨ id = "cancel-upload" →
  let reopened := setupUploadModal net "upload-btn" (setupUploadModal net id d) in
  let submitted := setupUploadModal net "upload-form" reopened in
  (("upload-modal", "hidden") ∉ classList (dialog_page reopened)) ∧
  panels_idle (dialog_page reopened) ∧
  alerts (dialog_page submitted)
    = alerts (dialog_page d) ++ ["Please select a shapefile to upload"] ∧
  requests (dialog_page submitted) = requests (dialog_page d) ∧
  classList (dialog_page submitted) = classList (dialog_page reopened).
Proof.
  intros Hid. cbn zeta.
  assert (setupUploadModal net id d = setupUploadModal net "close-modal" d) as ->.
  { destruct Hid as [->| ->]; [done|]. by destruct (closed_dialog d) as [-> _]. }
  destruct (closed_dialog_panels d) as (_ & Hform & Hprog & Hres).
  destruct (closed_dialog d) as (_ & Hcl & _).
  split; [apply not_elem_of_removed|].
  split; [|by cbn].
  unfold panels_idle. split; [|split].
  - intros [Hin _]%elem_of_difference. by apply Hform.
  - by apply elem_of_removed_other.
  - by apply elem_of_removed_other.
Qed.


End MoreProperties.

(** * The properties at work, and the two statements that fail *)

#[local] Existing Instance plain_host.



(** On that run a single request goes out and the failure is logged. *)
Example flood_down_run :
  requests (exec (loadHazardData flood_down) blank) = [GET "/api/flood-data/"] ∧
  console (exec (loadHazardData flood_down) blank)
    = [("Error loading hazard data:", TypeError "Failed to fetch")] ∧
  layers (landslideLayer (exec (loadHazardData flood_down) blank)) = [] ∧
  layers (liquefactionLayer (exec (loadHazardData flood_down) blank)) = [].
Proof. repeat split; reflexivity. Qed.

(** A flood feature without properties: the feature before it is drawn,
    the failure is logged, and the other two datasets are never asked
    for. *)
Example flood_unreadable_run :
  features_of FloodLayer (exec (loadHazardData flood_unreadable) blank)
    = [feature_of "LS" "F0" None] ∧
  requests (exec (loadHazardData flood_unreadable) blank) = [GET "/api/flood-data/"] ∧
  console (exec (loadHazardData flood_unreadable) blank)
    = [("Error loading hazard data:",
        TypeError "Cannot read properties of null (reading 'susceptibility')")] ∧
  layers (landslideLayer (exec (loadHazardData flood_unreadable) blank)) = [].
Proof. repeat split; reflexivity. Qed.

(** A feature without geometry gets no shape. *)
Example no_geometry_no_shape :
  addGeoJSONLayer
    (FeatureCollection [no_geometry; feature_of "MS" "F2" None]) FloodLayer "flood"
    blank
  = addGeoJSONLayer (FeatureCollection [feature_of "MS" "F2" None]) FloodLayer "flood"
      blank ∧
  length (layers (floodLayer
    (exec (addGeoJSONLayer
             (FeatureCollection [no_geometry; feature_of "MS" "F2" None])
             FloodLayer "flood") blank))) = 1%nat.
Proof. split; reflexivity. Qed.



(** The susceptibility code [constructor] names a member that [COLORS]
    inherits: the fill colour is that member, not the fallback colour. *)
Lemma inherited_name_is_not_the_fallback :
  "constructor" ∈ Object_prototype ∧
  fillColor (style_option (properties_of "constructor" "Z9" None))
    = VBuiltin "constructor" ∧
  fillColor (style_option (properties_of "constructor" "Z9" None)) ≠ VStr "#95a5a6".
Proof.
  assert ("constructor" ∈ Object_prototype) as Hin.
  { apply (bool_decide_unpack _). reflexivity. }
  split; [exact Hin|].
  exact (proj2 (proj2 (proj2
           (fillColor_resolution (properties_of "constructor" "Z9" None)))) Hin).
Defined.

(** Two clicks on a freshly loaded page: one marker, at the second
    coordinate. *)
Lemma two_clicks_one_marker :
  let p := DOMContentLoaded landslide_500 ∅ ∅ ∅ in
  marker_inv p ∧
  ∃ m, map_markers (run landslide_500
                      ([MapClick (9.123456, 123.654321)] ++ [MapClick (9.2, 123.7)]) p)
         = [m] ∧
       marker_latlng m = (9.2, 123.7).
Proof.
  intros p.
  assert (marker_inv p) as Hinv by (vm_compute; reflexivity).
  split; [exact Hinv|].
  destruct (one_selection_marker landslide_500
              [MapClick (9.123456, 123.654321)] p Hinv) as [_ Hclick].
  destruct (Hclick (9.2, 123.7)) as (m & Hm & Hat & _).
  by exists m.
Defined.

(** The first click on a page where nothing was selected yet. *)
Lemma first_click_on_blank_page :
  currentMarker blank = None ∧
  map_markers blank = [] ∧
  returns (onMapClick (9.123456, 123.654321)) blank ∧
  (∃ m, map_markers (exec (onMapClick (9.123456, 123.654321)) blank) = [m] ∧
        marker_latlng m = (9.123456, 123.654321) ∧
        currentMarker (exec (onMapClick (9.123456, 123.654321)) blank) = Some m) ∧
  ¬ returns (map_removeMarker (currentMarker blank)) blank.
Proof.
  split; [reflexivity|]. split; [reflexivity|].
  exact (first_click_places_one_marker (9.123456, 123.654321) blank eq_refl eq_refl).
Defined.

(** An upload answered [{records_created: 42}], and one answered 400 with
    [{error: "bad format"}]. *)
Lemma upload_42_records_and_bad_format :
  let created := upload_answers (Responded true (Some {[ "records_created" := VNum 42 ]})) in
  let refused := upload_answers (Responded false (Some {[ "error" := VStr "bad format" ]})) in
  files filled_form !! 0%nat = Some {| file_name := "hazard.zip" |} ∧
  datasetType_value filled_form ≠ "" ∧
  (∃ message,
     result_shown (exec (handleFileUpload created filled_form) blank) true (VStr message) ∧
     contains message "42" ∧
     reloaded (elapse 1999 (exec (handleFileUpload created filled_form) blank)) = false ∧
     reloaded (elapse 2000 (exec (handleFileUpload created filled_form) blank)) = true) ∧
  (∃ message,
     result_shown (exec (handleFileUpload refused filled_form) blank) false message ∧
     contains (ToString message) "bad format" ∧
     timers (exec (handleFileUpload refused filled_form) blank) = [] ∧
     ∀ ms, reloaded (elapse ms (exec (handleFileUpload refused filled_form) blank)) = false).
Proof.
  intros created refused.
  assert (datasetType_value filled_form ≠ "") as Htype by discriminate.
  split; [reflexivity|]. split; [exact Htype|]. split.
  - destruct (upload_response_is_reported created filled_form _ blank eq_refl Htype)
      as [Hok _].
    destruct (Hok {[ "records_created" := VNum 42 ]} (VNum 42) eq_refl eq_refl)
      as (message & Hshown & Hn & _ & _ & _ & Hreload).
    exists message. split; [exact Hshown|]. split; [exact Hn|].
    split; [exact (Hreload 1999%nat) | exact (Hreload 2000%nat)].
  - destruct (upload_response_is_reported refused filled_form _ blank eq_refl Htype)
      as [_ Hfail].
    destruct (Hfail {[ "error" := VStr "bad format" ]} "bad format" eq_refl eq_refl)
      as (message & Hshown & Hm & _ & Ht & _ & Hreload).
    exists message. split; [exact Hshown|]. split; [exact Hm|].
    split; [exact Ht|]. intros ms. rewrite (Hreload ms). reflexivity.
Defined.

(** Submitting with no file selected: one alert, no request. *)
Lemma submit_without_file :
  let form := {| files := []; datasetType_value := "flood" |} in
  (files form !! 0%nat = None ∨ datasetType_value form = "") ∧
  alerts (exec (handleFileUpload landslide_500 form) blank)
    = ["Please select a shapefile to upload"] ∧
  requests (exec (handleFileUpload landslide_500 form) blank) = [].
Proof.
  intros form.
  assert (files form !! 0%nat = None ∨ datasetType_value form = "") as Hmissing
    by (left; reflexivity).
  split; [exact Hmissing|].
  destruct (upload_validation landslide_500 form blank) as (Hrej & _).
  destruct (Hrej Hmissing) as (_ & _ & Hreq & _).
  split; [reflexivity | exact Hreq].
Defined.

(** Unchecking the flood toggle on a loaded page hides the flood shapes and
    nothing else; toggling the layer that failed to load changes nothing
    on the map. *)
Lemma toggles_on_a_loaded_page :
  let p := DOMContentLoaded landslide_500 ∅ ∅ ∅ in
  LiquefactionLayer ≠ FloodLayer ∧
  layers (group LandslideLayer p) = [] ∧
  visible FloodLayer (exec (setupLayerToggles "flood-toggle" false) p) = [] ∧
  visible LiquefactionLayer (exec (setupLayerToggles "flood-toggle" false) p)
    = visible LiquefactionLayer p ∧
  visible FloodLayer
    (exec (setupLayerToggles "flood-toggle" true)
       (exec (setupLayerToggles "flood-toggle" false) p))
    = layers (group FloodLayer p) ∧
  visible_shapes (exec (setupLayerToggles "landslide-toggle" false) p)
    = visible_shapes p.
Proof.
  intros p.
  assert (layers (group LandslideLayer p) = []) as Hempty by reflexivity.
  split; [discriminate|]. split; [exact Hempty|].
  destruct (toggle_changes_only_visibility FloodLayer false p)
    as (_ & _ & Hhidden & _ & Hothers & _ & _ & Hback & _).
  destruct (Hothers LiquefactionLayer ltac:(discriminate)) as [_ Hliq].
  destruct (toggle_changes_only_visibility LandslideLayer false p)
    as (_ & _ & _ & _ & _ & _ & _ & _ & _ & Hnoop).
  split; [exact Hhidden|]. split; [exact Hliq|]. split; [exact Hback|].
  exact (Hnoop Hempty).
Defined.

(** A 500 response with the body [{}]. *)
Lemma upload_500_without_error_field :
  let net := upload_answers (Responded false (Some ∅)) in
  files filled_form !! 0%nat = Some {| file_name := "hazard.zip" |} ∧
  datasetType_value filled_form ≠ "" ∧
  ((∅ : gmap string value) !! "error" = None ∨
   (∅ : gmap string value) !! "error" = Some (VStr "")) ∧
  result_shown (exec (handleFileUpload net filled_form) blank) false
    (VStr "Upload failed").
Proof.
  intros net.
  assert (datasetType_value filled_form ≠ "") as Htype by discriminate.
  assert ((∅ : gmap string value) !! "error" = None ∨
          (∅ : gmap string value) !! "error" = Some (VStr "")) as Herror
    by (left; reflexivity).
  split; [reflexivity|]. split; [exact Htype|]. split; [exact Herror|].
  exact (proj1 (upload_failure_fallback net filled_form _ ∅ blank
                  eq_refl Htype eq_refl Herror)).
Defined.

(** A 200 response whose body is not JSON. *)
Lemma upload_200_with_html_body :
  let net := upload_answers (Responded true None) in
  files filled_form !! 0%nat = Some {| file_name := "hazard.zip" |} ∧
  datasetType_value filled_form ≠ "" ∧
  upload_api net {| shapefile := {| file_name := "hazard.zip" |};
                    dataset_type := "flood" |} = Responded true None ∧
  (∃ html,
     innerHTML (exec (handleFileUpload net filled_form) blank) !! "result-message"
       = Some html ∧
     contains html "Network error occurred") ∧
  timers (exec (handleFileUpload net filled_form) blank) = [] ∧
  reloaded (elapse 2000 (exec (handleFileUpload net filled_form) blank)) = false.
Proof.
  intros net.
  assert (datasetType_value filled_form ≠ "") as Htype by discriminate.
  split; [reflexivity|]. split; [exact Htype|]. split; [reflexivity|].
  destruct (upload_unparsable_body net filled_form _ true blank eq_refl Htype eq_refl)
    as (_ & Hshown & Hcontains & _ & _ & Ht & _ & Hreload).
  split; [eexists; split; [exact (proj2 Hshown) | exact Hcontains]|].
  split; [exact Ht|]. rewrite (Hreload 2000%nat). reflexivity.
Defined.

(** * More properties at work *)

(** A search for a padded term, and one for blanks only. *)
Lemma search_for_dumaguete :
  white_space_only "  Dumaguete " = false ∧
  white_space_only "   " = true ∧
  alerts (exec (performSearch "  Dumaguete ") blank)
    = ["Search functionality is basic in this demo. Searched for: "
         +:+ dq +:+ "Dumaguete" +:+ dq] ∧
  alerts (exec (performSearch "   ") blank) = ["Please enter a location to search"] ∧
  requests (exec (performSearch "  Dumaguete ") blank) = [].
Proof.
  split; [reflexivity|]. split; [reflexivity|].
  destruct (performSearch_alerts_only "  Dumaguete " blank)
    as (_ & Hsame & _ & Hterm).
  destruct (Hterm eq_refl) as (Halert & _).
  destruct (performSearch_alerts_only "   " blank) as (_ & _ & Hblank & _).
  split; [exact Halert|]. split; [exact (Hblank eq_refl)|].
  destruct Hsame as (_ & _ & _ & _ & _ & _ & Hreq & _). exact Hreq.
Defined.

(** Typing a letter in the search input does nothing. *)
Lemma typing_a_letter :
  "a" ≠ "Enter" ∧
  setupSearch (SearchKeypress "a") "Bais" blank = (Normal tt, blank).
Proof.
  assert ("a" ≠ "Enter") as Hkey by discriminate.
  split; [exact Hkey|].
  exact (proj1 (proj2 (setupSearch_events "Bais" blank)) "a" Hkey).
Defined.



(** While the liquefaction toggle is unchecked, what is rendered into the
    layer does not show until the toggle puts the group back on the map. *)
Lemma rendered_while_unchecked :
  let feature := feature_of "LS" "Q4" None in
  let body := FeatureCollection [feature] in
  on_map (group LiquefactionLayer liquefaction_unchecked) = false ∧
  visible LiquefactionLayer
    (exec (addGeoJSONLayer body LiquefactionLayer "liquefaction")
       liquefaction_unchecked) = [] ∧
  path_feature <$> visible LiquefactionLayer
    (exec (setupLayerToggles "liquefaction-toggle" true)
       (exec (addGeoJSONLayer body LiquefactionLayer "liquefaction")
          liquefaction_unchecked))
    = [feature].
Proof.
  intros feature body. split; [reflexivity|].
  destruct (rendering_into_unchecked_layer body LiquefactionLayer
              "liquefaction" liquefaction_unchecked eq_refl)
    as (Hhidden & _ & Hshown).
  split; [exact Hhidden | exact Hshown].
Defined.


(** Two clicks far apart leave the same hazard details. *)
Lemma same_details_everywhere :
  innerHTML (exec (onMapClick (9.2, 123.7)) blank) !! "hazard-details"
  = innerHTML (exec (onMapClick (10.5, 122.9)) blank) !! "hazard-details".
Proof.
  destruct hazard_details_is_a_placeholder as (html & Hsame & _).
  destruct (Hsame (9.2, 123.7) blank) as [-> _].
  destruct (Hsame (10.5, 122.9) blank) as [-> _].
  reflexivity.
Defined.


(** The server cannot be reached. *)
Lemma upload_while_offline :
  let net := upload_answers Rejected in
  files filled_form !! 0%nat = Some {| file_name := "hazard.zip" |} ∧
  datasetType_value filled_form ≠ "" ∧
  upload_api net {| shapefile := {| file_name := "hazard.zip" |};
                    dataset_type := "flood" |} = Rejected ∧
  (∃ html,
     innerHTML (exec (handleFileUpload net filled_form) blank) !! "result-message"
       = Some html ∧
     contains html "Network error occurred") ∧
  timers (exec (handleFileUpload net filled_form) blank) = [].
Proof.
  intros net.
  assert (datasetType_value filled_form ≠ "") as Htype by discriminate.
  split; [reflexivity|]. split; [exact Htype|]. split; [reflexivity|].
  destruct (upload_fetch_rejected net filled_form _ blank eq_refl Htype eq_refl)
    as (_ & _ & Hshown & _ & _ & Ht & _).
  split; [exact Hshown | exact Ht].
Defined.

(** A 400 whose body is [{error: 0}], and one whose body is [{error: 404}]. *)
Lemma upload_refused_with_a_number :
  let zero := upload_answers (Responded false (Some {[ "error" := VNum 0 ]})) in
  let code := upload_answers (Responded false (Some {[ "error" := VNum 404 ]})) in
  files filled_form !! 0%nat = Some {| file_name := "hazard.zip" |} ∧
  datasetType_value filled_form ≠ "" ∧
  truthy (VNum 0) = false ∧ truthy (VNum 404) = true ∧
  (∃ html,
     innerHTML (exec (handleFileUpload zero filled_form) blank) !! "result-message"
       = Some html ∧
     contains html "Upload failed") ∧
  (∃ html,
     innerHTML (exec (handleFileUpload code filled_form) blank) !! "result-message"
       = Some html ∧
     contains html "404").
Proof.
  intros zero code.
  assert (datasetType_value filled_form ≠ "") as Htype by discriminate.
  split; [reflexivity|]. split; [exact Htype|].
  split; [reflexivity|]. split; [reflexivity|].
  destruct (upload_error_value zero filled_form _ {[ "error" := VNum 0 ]} blank
              eq_refl Htype eq_refl) as (_ & Hfalsy & _).
  destruct (upload_error_value code filled_form _ {[ "error" := VNum 404 ]} blank
              eq_refl Htype eq_refl) as (Htruthy & _).
  split; [exact (proj2 (Hfalsy eq_refl)) | exact (proj2 (Htruthy eq_refl))].
Defined.

(** A 200 whose body is [{error: "disk full"}]. *)
Lemma upload_200_with_an_error_field :
  let net := upload_answers (Responded true (Some {[ "error" := VStr "disk full" ]})) in
  files filled_form !! 0%nat = Some {| file_name := "hazard.zip" |} ∧
  datasetType_value filled_form ≠ "" ∧
  ({[ "error" := VStr "disk full" ]} : gmap string value) !! "records_created" = None ∧
  (∃ html,
     innerHTML (exec (handleFileUpload net filled_form) blank) !! "result-message"
       = Some html ∧
     contains html "Successfully processed undefined records") ∧
  timers (exec (handleFileUpload net filled_form) blank) = [(2000%nat, LocationReload)] ∧
  reloaded (elapse 2000 (exec (handleFileUpload net filled_form) blank)) = true.
Proof.
  intros net.
  assert (datasetType_value filled_form ≠ "") as Htype by discriminate.
  split; [reflexivity|]. split; [exact Htype|]. split; [reflexivity|].
  destruct (upload_ok_whatever_the_body net filled_form _
              {[ "error" := VStr "disk full" ]} blank eq_refl Htype eq_refl)
    as (_ & _ & _ & Ht & _ & Hreload & Hundefined).
  split; [exact (proj2 (Hundefined eq_refl))|]. split; [exact Ht|].
  rewrite (Hreload 2000%nat). reflexivity.
Defined.


(** Cancelling a filled dialog empties it. *)
Lemma cancel_a_filled_dialog :
  ("cancel-upload" = "close-modal" ∨ "cancel-upload" = "cancel-upload") ∧
  files (dialog_form (setupUploadModal landslide_500 "cancel-upload" filled_dialog)) = [] ∧
  panels_idle (dialog_page (setupUploadModal landslide_500 "cancel-upload" filled_dialog)).
Proof.
  assert ("cancel-upload" = "close-modal" ∨ "cancel-upload" = "cancel-upload")
    as Hid by (right; reflexivity).
  split; [exact Hid|].
  destruct (closing_resets_the_dialog landslide_500 "cancel-upload" filled_dialog Hid)
    as (_ & Hidle & Hfiles & _).
  split; [exact Hfiles | exact Hidle].
Defined.

(** Close, open again, submit: the file has to be chosen again. *)
Lemma close_open_submit :
  ("close-modal" = "close-modal" ∨ "close-modal" = "cancel-upload") ∧
  alerts (dialog_page
            (setupUploadModal landslide_500 "upload-form"
               (setupUploadModal landslide_500 "upload-btn"
                  (setupUploadModal landslide_500 "close-modal" filled_dialog))))
    = ["Please select a shapefile to upload"] ∧
  requests (dialog_page
              (setupUploadModal landslide_500 "upload-form"
                 (setupUploadModal landslide_500 "upload-btn"
                    (setupUploadModal landslide_500 "close-modal" filled_dialog))))
    = [].
Proof.
  assert ("close-modal" = "close-modal" ∨ "close-modal" = "cancel-upload")
    as Hid by (left; reflexivity).
  split; [exact Hid|].
  destruct (reopened_dialog_needs_a_file landslide_500 "close-modal" filled_dialog Hid)
    as (_ & _ & Ha & Hq & _).
  split; [exact Ha | exact Hq].
Defined.


(** A feature whose properties are the empty object, and one whose
    properties are null. *)
Lemma popup_of_a_bare_feature :
  let bare := {| properties := ∅ |} in
  properties bare !! "original_code" = None ∧
  properties bare !! "susceptibility" = None ∧
  (∃ popup, popupContent "flood" bare blank = (Normal popup, blank) ∧
            contains popup "Original Code: undefined" ∧
            contains popup "Level: undefined<br>") ∧
  ¬ returns (addGeoJSONLayer (FeatureCollection [no_properties]) FloodLayer "flood")
      blank.
Proof.
  intros bare. split; [reflexivity|]. split; [reflexivity|].
  destruct (popup_of_incomplete_feature "flood" bare FloodLayer blank)
    as ((popup & Hrun & Hcode & Hlevel & _) & Hnull & _).
  split.
  - exists popup. split; [exact Hrun|].
    split; [exact (Hcode eq_refl) | exact (proj1 (Hlevel eq_refl))].
  - intros [a Ha]. unfold no_properties in Ha. rewrite Hnull in Ha. discriminate Ha.
Defined.

(** A click on a page whose sidebar is hidden. *)
Lemma click_reveals_the_sidebar :
  let p := map_created {[ ("sidebar", "hidden") ]} ∅ ∅ in
  (("sidebar", "hidden") ∉ classList (exec (onMapClick (9.2, 123.7)) p)) ∧
  requests (exec (onMapClick (9.2, 123.7)) p) = [] ∧
  alerts (exec (onMapClick (9.2, 123.7)) p) = [].
Proof.
  intros p.
  destruct (onMapClick_detail_panel (9.2, 123.7) p) as (Hshown & _ & Hq & Ha & _).
  split; [exact Hshown|]. split; [exact Hq | exact Ha].
Defined.
